(** * Stock data fetcher: a shallow embedding of the Lambda handler

    The repository holds two copies of one Lambda function: the handler of
    [backend/lambdas/stock-data-fetcher/index.js] (module [Primary] below)
    and a second copy with a date-keyed cache (module [Variant]).  Both
    resolve a list of ticker symbols from the trigger event, answer each
    symbol from a DynamoDB cache or from the Alpha Vantage API, and compose
    one HTTP-style response.

    Modelling decisions:
    - JavaScript values that come from JSON (the event, the provider's
      payload) are the inductive [JsVal]; numbers are IEEE doubles.
    - Epoch times and TTLs are integers ([Z]); they stay far below 2^53,
      where double arithmetic is exact.
    - Strings are Rocq strings read as ASCII text: [toUpperCase] maps a-z
      and leaves every other character alone, [trim] strips the ASCII white
      space characters.
    - An [async] function is a program [Prog A]: a tree of calls to the
      outside world (DynamoDB, HTTP, the clock) that ends in a value or in
      a thrown exception.  [run] executes a program against a service, a
      deterministic state machine that answers the calls, and records the
      calls made.  [console.log] has no effect on any result and is left
      out. *)

From Stdlib Require Import ZArith String Ascii List Bool Lia.
From Stdlib Require Import Floats.PrimFloat.
From stdpp Require Import base option list gmap strings.

Import ListNotations.
Set Warnings "-register-all".
Local Open Scope string_scope.
Local Open Scope list_scope.

(** ** Strings *)

Module JsString.

(** White space removed by [String.prototype.trim] (ASCII part). *)
Definition is_whitespace (c : ascii) : bool :=
  match nat_of_ascii c with
  | 9 | 10 | 11 | 12 | 13 | 32 => true
  | _ => false
  end.

Definition upper_char (c : ascii) : ascii :=
  let n := nat_of_ascii c in
  if (97 <=? n)%nat && (n <=? 122)%nat then ascii_of_nat (n - 32) else c.

Fixpoint toUpperCase (s : string) : string :=
  match s with
  | EmptyString => EmptyString
  | String c r => String (upper_char c) (toUpperCase r)
  end.

Fixpoint trimStart (s : string) : string :=
  match s with
  | EmptyString => EmptyString
  | String c r => if is_whitespace c then trimStart r else s
  end.

Fixpoint trimEnd (s : string) : string :=
  match s with
  | EmptyString => EmptyString
  | String c r =>
      match trimEnd r with
      | EmptyString => if is_whitespace c then EmptyString else String c EmptyString
      | r' => String c r'
      end
  end.

Definition trim (s : string) : string := trimEnd (trimStart s).

(** [s.split(sep)] for a one-character separator. *)
Fixpoint split (sep : ascii) (s : string) : list string :=
  match s with
  | EmptyString => [EmptyString]
  | String c r =>
      if Ascii.eqb c sep then EmptyString :: split sep r
      else match split sep r with
           | [] => [String c EmptyString]
           | h :: t => String c h :: t
           end
  end.

(** [s.replace(c, "")] for a one-character pattern: the first occurrence
    goes. *)
Fixpoint remove_first (c : ascii) (s : string) : string :=
  match s with
  | EmptyString => EmptyString
  | String d r => if Ascii.eqb d c then r else String d (remove_first c r)
  end.

Definition is_empty (s : string) : bool :=
  match s with EmptyString => true | _ => false end.

(** [s.trim().toUpperCase()] *)
Definition trim_upper (s : string) : string := toUpperCase (trim s).

(** A string that [s.trim().toUpperCase()] leaves as it is. *)
Definition normalized (s : string) : Prop := toUpperCase (trim s) = s.

(** [s] between double quotes *)
Definition quoted (s : string) : string :=
  String (ascii_of_nat 34) s ++ String (ascii_of_nat 34) EmptyString.

End JsString.

(** ** Dates: [new Date(ms).toISOString()] *)

Module JsDate.
Local Open Scope Z_scope.

Definition digit (n : Z) : ascii := ascii_of_nat (48 + Z.to_nat n).

Fixpoint pad (w : nat) (n : Z) : string :=
  match w with
  | O => EmptyString
  | S w' => pad w' (n / 10) ++ String (digit (n mod 10)) EmptyString
  end.

(** Civil date of a day count since 1970-01-01 (proleptic Gregorian). *)
Definition civil_from_days (days : Z) : Z * Z * Z :=
  let z := days + 719468 in
  let era := z / 146097 in
  let doe := z - era * 146097 in
  let yoe := (doe - doe / 1460 + doe / 36524 - doe / 146096) / 365 in
  let doy := doe - (365 * yoe + yoe / 4 - yoe / 100) in
  let mp := (5 * doy + 2) / 153 in
  let d := doy - (153 * mp + 2) / 5 + 1 in
  let m := if mp <? 10 then mp + 3 else mp - 9 in
  let y := yoe + era * 400 + (if m <=? 2 then 1 else 0) in
  (y, m, d).

Definition year_string (y : Z) : string :=
  if (0 <=? y) && (y <=? 9999) then pad 4 y
  else (if y <? 0 then "-" else "+") ++ pad 6 (Z.abs y).

Definition toISOString (ms : Z) : string :=
  let days := ms / 86400000 in
  let rest := ms mod 86400000 in
  let '(y, m, d) := civil_from_days days in
  year_string y ++ "-" ++ pad 2 m ++ "-" ++ pad 2 d ++ "T"
    ++ pad 2 (rest / 3600000) ++ ":" ++ pad 2 (rest / 60000 mod 60) ++ ":"
    ++ pad 2 (rest / 1000 mod 60) ++ "." ++ pad 3 (rest mod 1000) ++ "Z".

(** [Math.floor(ms / 1000)] *)
Definition epoch_seconds (ms : Z) : Z := ms / 1000.

End JsDate.

(** ** JSON values and exceptions

    The fields of an object are its own properties, each name once. *)

Inductive JsVal : Type :=
| JUndefined
| JNull
| JBool (b : bool)
| JNum (x : float)
| JStr (s : string)
| JArr (elems : list JsVal)
| JObj (fields : list (string * JsVal)).

Record Exn : Type := mkExn { exn_name : string; message : string }.

Definition Error (msg : string) : Exn := mkExn "Error" msg.
Definition TypeError (msg : string) : Exn := mkExn "TypeError" msg.

Module Js.

(** A number is falsy when it is 0, -0 or NaN. *)
Definition num_truthy (x : float) : bool :=
  negb (PrimFloat.eqb x 0%float) && PrimFloat.eqb x x.

Definition truthy (v : JsVal) : bool :=
  match v with
  | JUndefined | JNull => false
  | JBool b => b
  | JNum x => num_truthy x
  | JStr s => negb (JsString.is_empty s)
  | JArr _ | JObj _ => true
  end.

Fixpoint assoc (name : string) (fields : list (string * JsVal)) : JsVal :=
  match fields with
  | [] => JUndefined
  | (k, v) :: rest => if String.eqb k name then v else assoc name rest
  end.

Definition describe (v : JsVal) : string :=
  match v with JNull => "null" | _ => "undefined" end.

(** [v.name] and [v[name]].  The
    names the handler reads are own properties of objects only: no
    string, number, boolean or array has them.  Reading a property of
    [null] or [undefined] throws (the message is V8's). *)
Definition get_prop (v : JsVal) (name : string) : Exn + JsVal :=
  match v with
  | JUndefined | JNull =>
      inl (TypeError ("Cannot read properties of " ++ describe v
                        ++ " (reading '" ++ name ++ "')"))
  | JObj fields => inr (assoc name fields)
  | _ => inr JUndefined
  end.

(** [a || b] *)
Definition or (a b : JsVal) : JsVal := if truthy a then a else b.

(** [x || 0] on a number *)
Definition num_or_zero (x : float) : float := if num_truthy x then x else 0%float.

(** [Object.keys(v).length] for a truthy [v]: the own enumerable string
    keys (the characters of a string, the slots of an array, the fields
    of an object). *)
Definition keys_length (v : JsVal) : nat :=
  match v with
  | JStr s => String.length s
  | JArr l => length l
  | JObj fields => length fields
  | _ => 0
  end.

End Js.

(** The conversions of the runtime that the handler applies to the
    provider's fields ([parseFloat], [parseInt], and the conversion to a
    string that [new Error(v)] performs); they are the engine's, and the
    model takes them as given.  Each of them first converts its argument
    to a string, which throws a TypeError for an object that cannot be
    converted to a primitive (an object whose [toString] is not callable),
    so each may throw. *)
Record JsRuntime : Type := {
  parseFloat : JsVal -> Exn + float;
  parseInt : JsVal -> Exn + float;
  toText : JsVal -> Exn + string
}.

(** ** The data model of the cache and of the responses *)

(** The quote object that [fetchFromAlphaVantage] builds. *)
Record Quote : Type := {
  q_symbol : string;
  q_price : float;
  q_change : float;
  q_changePct : float;
  q_volume : float;
  q_latestTradingDay : JsVal;
  q_previousClose : float;
  q_open : float;
  q_high : float;
  q_low : float
}.

(** [{ ...quote, cached: b }] *)
Record QuoteResult : Type := {
  qr_quote : Quote;
  qr_cached : bool
}.

(** The key of a cache entry: the partition attribute [symbol] and one sort
    attribute, given by its name and its value. *)
Record Key : Type := {
  key_symbol : string;
  key_sort_name : string;
  key_sort_value : string
}.

(** A cache entry as [saveToCache] writes it. *)
Record Item : Type := {
  item_key : Key;
  item_data : Quote;
  item_ttl : Z;
  item_timestamp : Z;
  item_updatedAt : string
}.

(** The module constants read from [process.env] when the module loads.
    [CACHE_TTL] is the integer that [parseInt] made of the setting. *)
Record Config : Type := {
  CACHE_TABLE : string;
  CACHE_TTL : Z;
  API_KEY : option string
}.

Inductive Body : Type :=
| SingleQuote (symbol : string) (quote : QuoteResult) (cached : bool)
| MultiQuote (success : option bool) (quotes : list QuoteResult)
    (timestamp : string) (cached fresh : nat)
| Failure (success : bool) (error : string) (timestamp : string).

(** The object the handler returns; [body] stands for the JSON text of the
    payload. *)
Record Response : Type := {
  statusCode : Z;
  headers : list (string * string);
  body : Body
}.

(** ** Programs: asynchronous code as trees of external calls *)

(** The calls that leave the process.  A promise that rejects answers with
    the exception on the left. *)
Inductive Ext : Type -> Type :=
| DynamoGet (table : string) (key : Key) : Ext (Exn + option Item)
| DynamoPut (table : string) (item : Item) : Ext (Exn + unit)
| AxiosGet (url : string) (params : list (string * string)) (timeout : Z)
  : Ext (Exn + JsVal)
| DateNow : Ext Z.

Inductive Prog (A : Type) : Type :=
| Ret (a : A)
| Throw (e : Exn)
| Call {X : Type} (c : Ext X) (k : X -> Prog A).

Arguments Ret {A} a.
Arguments Throw {A} e.
Arguments Call {A X} c k.

Fixpoint bind {A B : Type} (p : Prog A) (f : A -> Prog B) : Prog B :=
  match p with
  | Ret a => f a
  | Throw e => Throw e
  | Call c k => Call c (fun x => bind (k x) f)
  end.

(** [try { p } catch (error) { h error }] *)
Fixpoint try_catch {A : Type} (p : Prog A) (h : Exn -> Prog A) : Prog A :=
  match p with
  | Ret a => Ret a
  | Throw e => h e
  | Call c k => Call c (fun x => try_catch (k x) h)
  end.

#[global] Instance Prog_ret : MRet Prog := @Ret.
#[global] Instance Prog_bind : MBind Prog := fun A B f p => bind p f.

(** [await promise] *)
Definition await {X : Type} (c : Ext (Exn + X)) : Prog X :=
  Call c (fun r => match r with inl e => Throw e | inr x => Ret x end).

(** [Date.now()] and the time value of [new Date()] *)
Definition now : Prog Z := Call DateNow Ret.

(** A synchronous step that may throw. *)
Definition lift {A : Type} (r : Exn + A) : Prog A :=
  match r with inl e => Throw e | inr a => Ret a end.

(** The outside world as a deterministic machine: it answers a call from its
    current state and moves on. *)
Record Service (S : Type) : Type := {
  answer : forall X : Type, Ext X -> S -> X * S
}.
Arguments answer {S} _ {X} _ _.

Definition Called : Type := { X : Type & Ext X }.
Definition called {X : Type} (c : Ext X) : Called := existT X c.

Inductive Outcome (A : Type) : Type :=
| Returned (a : A)
| Thrown (e : Exn).
Arguments Returned {A} a.
Arguments Thrown {A} e.

Record Run (S A : Type) : Type := {
  outcome : Outcome A;
  calls : list Called;
  final : S
}.
Arguments outcome {S A} _.
Arguments calls {S A} _.
Arguments final {S A} _.

Fixpoint run {S A : Type} (srv : Service S) (p : Prog A) (s : S) : Run S A :=
  match p with
  | Ret a => {| outcome := Returned a; calls := []; final := s |}
  | Throw e => {| outcome := Thrown e; calls := []; final := s |}
  | Call c k =>
      let '(x, s') := answer srv c s in
      let r := run srv (k x) s' in
      {| outcome := outcome r; calls := called c :: calls r; final := final r |}
  end.

Definition is_put (c : Called) : bool :=
  match projT2 c with DynamoPut _ _ => true | _ => false end.
Definition is_http (c : Called) : bool :=
  match projT2 c with AxiosGet _ _ _ => true | _ => false end.

Definition successResponse (b : Body) : Response :=
  {| statusCode := 200;
     headers := [("Content-Type", "application/json");
                 ("Access-Control-Allow-Origin", "*");
                 ("Access-Control-Allow-Headers", "Content-Type, Authorization");
                 ("Access-Control-Allow-Methods", "GET,OPTIONS")];
     body := b |}.

(** [errorResponse(message)]; [ms] is the clock at [new Date()]. *)
Definition errorResponse (msg : string) (ms : Z) : Response :=
  {| statusCode := 400;
     headers := [("Content-Type", "application/json");
                 ("Access-Control-Allow-Origin", "*")];
     body := Failure false msg (JsDate.toISOString ms) |}.

(** Synchronous code that may throw: [Exn + A] with its bind. *)
#[global] Instance sum_ret : MRet (sum Exn) := fun A a => inr a.
#[global] Instance sum_bind : MBind (sum Exn) :=
  fun A B f r => match r with inl e => inl e | inr a => f a end.

Module JsCall.

(** [v.trim()], where [expr] is the source text of [v]. *)
Definition trim (expr : string) (v : JsVal) : Exn + string :=
  match v with
  | JStr s => inr (JsString.trim s)
  | JUndefined | JNull =>
      inl (TypeError ("Cannot read properties of " ++ Js.describe v
                        ++ " (reading 'trim')"))
  | _ => inl (TypeError (expr ++ ".trim is not a function"))
  end.

(** [v.split(',')] for a truthy [v] *)
Definition split_comma (expr : string) (v : JsVal) : Exn + list string :=
  match v with
  | JStr s => inr (JsString.split "," s)
  | _ => inl (TypeError (expr ++ ".split is not a function"))
  end.

(** [arr.map(s => s.trim().toUpperCase())]: the first element that has no
    [trim] throws. *)
Fixpoint map_trim_upper (elems : list JsVal) : Exn + list string :=
  match elems with
  | [] => inr []
  | v :: rest =>
      s ← trim "s" v;
      ss ← map_trim_upper rest;
      mret (JsString.toUpperCase s :: ss)
  end.

(** [v?.replace("%", "")] *)
Definition opt_replace_percent (expr : string) (v : JsVal) : Exn + JsVal :=
  match v with
  | JUndefined | JNull => inr JUndefined
  | JStr s => inr (JStr (JsString.remove_first "%" s))
  | _ => inl (TypeError (expr ++ "?.replace is not a function"))
  end.

(** [err.message || "Unknown error"] *)
Definition message_or_unknown (e : Exn) : string :=
  if JsString.is_empty (message e) then "Unknown error" else message e.

(** A message that does not start with the letter N. *)
Definition not_N (msg : string) : Prop :=
  exists c rest, msg = String c rest /\ c <> "N"%char.

End JsCall.

(** [Promise.all] of settled promises: the values in the order of the
    promises, or the rejection of one of them. *)
Fixpoint promise_all {A : Type} (settled : list (Outcome A)) : Exn + list A :=
  match settled with
  | [] => inr []
  | Returned a :: rest => l ← promise_all rest; mret (a :: l)
  | Thrown e :: _ => inl e
  end.

(** One invocation's view of the outside world.  The table and the provider
    are shared with whatever else runs at the time, so the answers given to
    one symbol's calls are not a function of the invocation's own earlier
    calls: each symbol's promise talks to the service from a state of its
    own, which covers every interleaving of the promises.  [reply_clock]
    is the clock when the response is built. *)
Record World (S : Type) : Type := {
  service : Service S;
  task_state : nat -> S;
  reply_clock : Z
}.
Arguments service {S} _.
Arguments task_state {S} _ _.
Arguments reply_clock {S} _.

Record Invocation : Type := {
  response : Response;
  task_calls : list (list Called)
}.

(** ** The handler of [backend/lambdas/stock-data-fetcher/index.js] *)

Module Primary.

Definition DEFAULT_SYMBOLS : list string :=
  ["AAPL"; "MSFT"; "AMZN"; "NVDA"; "TSLA"; "META"; "GOOGL"; "BRK.B"; "JPM"; "JNJ"].

(** The constants when no environment variable is set. *)
Definition default_config (api_key : option string) : Config :=
  {| CACHE_TABLE := "stock-price-cache"; CACHE_TTL := 45; API_KEY := api_key |}.

Definition cache_key (symbol : string) : Key :=
  {| key_symbol := symbol; key_sort_name := "dataType"; key_sort_value := "quote" |}.

Section WithConfig.
Context (cfg : Config) (rt : JsRuntime).

Definition getFromCache (symbol : string) : Prog (option Quote) :=
  try_catch
    (result ← await (DynamoGet (CACHE_TABLE cfg) (cache_key symbol));
     match result with
     | Some item =>
         ms ← now;
         if (JsDate.epoch_seconds ms <? item_ttl item)%Z
         then mret (Some (item_data item))
         else mret None
     | None => mret None
     end)
    (fun error => mret None).

Definition saveToCache (symbol : string) (data : Quote) : Prog unit :=
  try_catch
    (ms ← now;
     let now_s := JsDate.epoch_seconds ms in
     ms' ← now;
     _ ← await (DynamoPut (CACHE_TABLE cfg)
                  {| item_key := cache_key symbol;
                     item_data := data;
                     item_ttl := (now_s + CACHE_TTL cfg)%Z;
                     item_timestamp := now_s;
                     item_updatedAt := JsDate.toISOString ms' |});
     mret tt)
    (fun error => mret tt).

(** The object literal that [fetchFromAlphaVantage] returns, from the
    "Global Quote" object; its fields are evaluated in the order of the
    source. *)
Definition parse_quote (symbol : string) (global : JsVal) : Exn + Quote :=
  price ← Js.get_prop global "05. price" ≫= parseFloat rt;
  change ← Js.get_prop global "09. change" ≫= parseFloat rt;
  pct ← Js.get_prop global "10. change percent";
  pct' ← JsCall.opt_replace_percent
           ("global[" ++ JsString.quoted "10. change percent" ++ "]") pct;
  changePct ← parseFloat rt pct';
  volume ← Js.get_prop global "06. volume" ≫= parseInt rt;
  day ← Js.get_prop global "07. latest trading day";
  previousClose ← Js.get_prop global "08. previous close" ≫= parseFloat rt;
  open ← Js.get_prop global "02. open" ≫= parseFloat rt;
  high ← Js.get_prop global "03. high" ≫= parseFloat rt;
  low ← Js.get_prop global "04. low" ≫= parseFloat rt;
  mret {| q_symbol := symbol;
          q_price := Js.num_or_zero price;
          q_change := Js.num_or_zero change;
          q_changePct := Js.num_or_zero changePct;
          q_volume := Js.num_or_zero volume;
          q_latestTradingDay := Js.or day (JStr "");
          q_previousClose := Js.num_or_zero previousClose;
          q_open := Js.num_or_zero open;
          q_high := Js.num_or_zero high;
          q_low := Js.num_or_zero low |}.

(** [!API_KEY] *)
Definition api_key_missing : bool :=
  match API_KEY cfg with
  | None => true
  | Some k => JsString.is_empty k
  end.

(** [axios.get(url, { params, timeout: 10000 })] *)
Definition provider_request (symbol : string) : Ext (Exn + JsVal) :=
  AxiosGet "https://www.alphavantage.co/query"
    [("function", "GLOBAL_QUOTE"); ("symbol", symbol);
     ("apikey", default "" (API_KEY cfg))]
    10000.

Definition fetchFromAlphaVantage (symbol : string) : Prog (option Quote) :=
  try_catch
    (if api_key_missing then Throw (Error "ALPHA_VANTAGE_API_KEY not configured")
     else
       data ← await (provider_request symbol);
       errorMessage ← lift (Js.get_prop data "Error Message");
       if Js.truthy errorMessage
       then msg ← lift (toText rt errorMessage); Throw (Error msg)
       else
         note ← lift (Js.get_prop data "Note");
         if Js.truthy note then Throw (Error "API rate limit exceeded")
         else
           global ← lift (Js.get_prop data "Global Quote");
           if negb (Js.truthy global) || (Js.keys_length global =? 0)%nat
           then Throw (Error "No data found")
           else
             quote ← lift (parse_quote symbol global);
             mret (Some quote))
    (fun error => mret None).

(** The ways the provider client fails, by what [fetchFromAlphaVantage]
    tests: a missing API key (no request is made), a rejected request, an
    "Error Message" field, a "Note" field, and a missing or empty
    "Global Quote".  [reply] is the answer to the request. *)
Inductive ErrorKind : Type :=
| MissingCredential
| TransportError
| UpstreamError
| RateLimitError
| NoDataError.

Inductive provider_error (reply : Exn + JsVal) : ErrorKind -> Prop :=
| pe_credential :
    api_key_missing = true -> provider_error reply MissingCredential
| pe_transport e :
    reply = inl e -> provider_error reply TransportError
| pe_upstream data v :
    reply = inr data -> Js.get_prop data "Error Message" = inr v ->
    Js.truthy v = true -> provider_error reply UpstreamError
| pe_rate_limit data v :
    reply = inr data -> Js.get_prop data "Note" = inr v ->
    Js.truthy v = true -> provider_error reply RateLimitError
| pe_no_data data g :
    reply = inr data -> Js.get_prop data "Global Quote" = inr g ->
    Js.truthy g = false \/ Js.keys_length g = 0%nat ->
    provider_error reply NoDataError.

Definition fetchQuoteWithCache (symbol : string) : Prog (option QuoteResult) :=
  try_catch
    (cached ← getFromCache symbol;
     match cached with
     | Some q => mret (Some {| qr_quote := q; qr_cached := true |})
     | None =>
         quote ← fetchFromAlphaVantage symbol;
         match quote with
         | None => mret None
         | Some q =>
             _ ← saveToCache symbol q;
             mret (Some {| qr_quote := q; qr_cached := false |})
         end
     end)
    (fun error => mret None).

End WithConfig.

(** [event.pathParameters && event.pathParameters.symbol] *)
Definition path_symbol (event : JsVal) : Exn + JsVal :=
  pp ← Js.get_prop event "pathParameters";
  if Js.truthy pp then Js.get_prop pp "symbol" else mret pp.

(** [event.queryStringParameters && event.queryStringParameters.symbols] *)
Definition query_symbols (event : JsVal) : Exn + JsVal :=
  qp ← Js.get_prop event "queryStringParameters";
  if Js.truthy qp then Js.get_prop qp "symbols" else mret qp.

Definition is_array (v : JsVal) : bool :=
  match v with JArr _ => true | _ => false end.

Definition elements (v : JsVal) : list JsVal :=
  match v with JArr l => l | _ => [] end.

(** The four branches that fill [symbols]. *)
Definition resolveSymbols (event : JsVal) : Exn + list string :=
  ps ← path_symbol event;
  if Js.truthy ps then
    symbol ← JsCall.trim "event.pathParameters.symbol" ps;
    mret [JsString.toUpperCase symbol]
  else
    qs ← query_symbols event;
    if Js.truthy qs then
      parts ← JsCall.split_comma "event.queryStringParameters.symbols" qs;
      mret (map (fun s => JsString.toUpperCase (JsString.trim s)) parts)
    else
      es ← Js.get_prop event "symbols";
      if Js.truthy es && is_array es then JsCall.map_trim_upper (elements es)
      else mret DEFAULT_SYMBOLS.

(** The shape of the response: the test of line 72, which is the test of
    line 29 again. *)
Inductive Shape : Type := SINGLE | MULTI.

Definition responseShape (event : JsVal) : Exn + Shape :=
  ps ← path_symbol event;
  mret (if Js.truthy ps then SINGLE else MULTI).

(** [`${symbols[0]}`] *)
Definition first_symbol (symbols : list string) : string :=
  match symbols with s :: _ => s | [] => "undefined" end.

Section WithWorld.
Context {S : Type} (cfg : Config) (rt : JsRuntime) (w : World S).

(** [symbols.map(fetchQuoteWithCache)], each promise run to its end. *)
Definition resolve_each (symbols : list string) : list (Run S (option QuoteResult)) :=
  imap (fun i symbol => run (service w) (fetchQuoteWithCache cfg rt symbol) (task_state w i))
       symbols.

(** The response built from the settled quotes (lines 69 to 90). *)
Definition compose (event : JsVal) (symbols : list string)
    (quotes : list (option QuoteResult)) : Exn + Response :=
  let validQuotes := omap id quotes in
  shape ← responseShape event;
  match shape with
  | SINGLE =>
      match validQuotes with
      | [] => mret (errorResponse ("Stock symbol '" ++ first_symbol symbols ++ "' not found.")
                      (reply_clock w))
      | q :: _ =>
          mret (successResponse (SingleQuote (first_symbol symbols) q (qr_cached q || false)))
      end
  | MULTI =>
      mret (successResponse
              (MultiQuote None validQuotes (JsDate.toISOString (reply_clock w))
                 (length (List.filter (fun q => qr_cached q) validQuotes))
                 (length (List.filter (fun q => negb (qr_cached q)) validQuotes))))
  end.

(** The body of the handler's [try] block. *)
Definition handler_try (event : JsVal) : (Exn + Response) * list (list Called) :=
  match resolveSymbols event with
  | inl e => (inl e, [])
  | inr symbols =>
      if (length symbols =? 0)%nat
      then (inr (errorResponse "No symbols provided." (reply_clock w)), [])
      else
        let runs := resolve_each symbols in
        (quotes ← promise_all (map outcome runs); compose event symbols quotes,
         map calls runs)
  end.

Definition handler (event : JsVal) : Invocation :=
  let '(r, cs) := handler_try event in
  {| response :=
       match r with
       | inr resp => resp
       | inl err => errorResponse (JsCall.message_or_unknown err) (reply_clock w)
       end;
     task_calls := cs |}.

End WithWorld.

End Primary.

(** ** The second copy of the handler

    The second handler file of the repository.  It differs from the first
    in the defaults of its constants, in the cache key (the sort attribute
    is [date], the current UTC day), in the [success] flag of the
    multi-quote payload, and in some log and error texts. *)

Module Variant.

Definition DEFAULT_SYMBOLS : list string :=
  ["AAPL"; "MSFT"; "AMZN"; "NVDA"; "TSLA"; "META"].

(** The constants when no environment variable is set. *)
Definition default_config (api_key : option string) : Config :=
  {| CACHE_TABLE := "stock-prices-cache"; CACHE_TTL := 300; API_KEY := api_key |}.

(** [new Date().toISOString().split('T')[0]], at clock [ms] *)
Definition today (ms : Z) : string :=
  match JsString.split "T" (JsDate.toISOString ms) with
  | d :: _ => d
  | [] => "undefined"
  end.

Definition cache_key (symbol : string) (today : string) : Key :=
  {| key_symbol := symbol; key_sort_name := "date"; key_sort_value := today |}.

Section WithConfig.
Context (cfg : Config) (rt : JsRuntime).

Definition getFromCache (symbol : string) : Prog (option Quote) :=
  try_catch
    (ms0 ← now;
     result ← await (DynamoGet (CACHE_TABLE cfg) (cache_key symbol (today ms0)));
     match result with
     | Some item =>
         ms ← now;
         if (JsDate.epoch_seconds ms <? item_ttl item)%Z
         then mret (Some (item_data item))
         else mret None
     | None => mret None
     end)
    (fun error => mret None).

Definition saveToCache (symbol : string) (data : Quote) : Prog unit :=
  try_catch
    (ms ← now;
     let now_s := JsDate.epoch_seconds ms in
     ms0 ← now;
     ms' ← now;
     _ ← await (DynamoPut (CACHE_TABLE cfg)
                  {| item_key := cache_key symbol (today ms0);
                     item_data := data;
                     item_ttl := (now_s + CACHE_TTL cfg)%Z;
                     item_timestamp := now_s;
                     item_updatedAt := JsDate.toISOString ms' |});
     mret tt)
    (fun error => mret tt).

(** The object literal that [fetchFromAlphaVantage] returns, from the
    "Global Quote" object; its fields are evaluated in the order of the
    source. *)
Definition parse_quote (symbol : string) (global : JsVal) : Exn + Quote :=
  price ← Js.get_prop global "05. price" ≫= parseFloat rt;
  change ← Js.get_prop global "09. change" ≫= parseFloat rt;
  pct ← Js.get_prop global "10. change percent";
  pct' ← JsCall.opt_replace_percent
           ("globalQuote[" ++ JsString.quoted "10. change percent" ++ "]") pct;
  changePct ← parseFloat rt pct';
  volume ← Js.get_prop global "06. volume" ≫= parseInt rt;
  day ← Js.get_prop global "07. latest trading day";
  previousClose ← Js.get_prop global "08. previous close" ≫= parseFloat rt;
  open ← Js.get_prop global "02. open" ≫= parseFloat rt;
  high ← Js.get_prop global "03. high" ≫= parseFloat rt;
  low ← Js.get_prop global "04. low" ≫= parseFloat rt;
  mret {| q_symbol := symbol;
          q_price := Js.num_or_zero price;
          q_change := Js.num_or_zero change;
          q_changePct := Js.num_or_zero changePct;
          q_volume := Js.num_or_zero volume;
          q_latestTradingDay := Js.or day (JStr "");
          q_previousClose := Js.num_or_zero previousClose;
          q_open := Js.num_or_zero open;
          q_high := Js.num_or_zero high;
          q_low := Js.num_or_zero low |}.

(** [!API_KEY] *)
Definition api_key_missing : bool :=
  match API_KEY cfg with
  | None => true
  | Some k => JsString.is_empty k
  end.

(** [axios.get(url, { params, timeout: 10000 })] *)
Definition provider_request (symbol : string) : Ext (Exn + JsVal) :=
  AxiosGet "https://www.alphavantage.co/query"
    [("function", "GLOBAL_QUOTE"); ("symbol", symbol);
     ("apikey", default "" (API_KEY cfg))]
    10000.

Definition fetchFromAlphaVantage (symbol : string) : Prog (option Quote) :=
  try_catch
    (if api_key_missing then Throw (Error "ALPHA_VANTAGE_API_KEY not configured")
     else
       data ← await (provider_request symbol);
       errorMessage ← lift (Js.get_prop data "Error Message");
       if Js.truthy errorMessage
       then msg ← lift (toText rt errorMessage); Throw (Error msg)
       else
         note ← lift (Js.get_prop data "Note");
         if Js.truthy note then Throw (Error "API rate limit exceeded")
         else
           global ← lift (Js.get_prop data "Global Quote");
           if negb (Js.truthy global) || (Js.keys_length global =? 0)%nat
           then Throw (Error ("No data found for " ++ symbol))
           else
             quote ← lift (parse_quote symbol global);
             mret (Some quote))
    (fun error => mret None).

Definition fetchQuoteWithCache (symbol : string) : Prog (option QuoteResult) :=
  try_catch
    (cached ← getFromCache symbol;
     match cached with
     | Some q => mret (Some {| qr_quote := q; qr_cached := true |})
     | None =>
         quote ← fetchFromAlphaVantage symbol;
         match quote with
         | None => mret None
         | Some q =>
             _ ← saveToCache symbol q;
             mret (Some {| qr_quote := q; qr_cached := false |})
         end
     end)
    (fun error => mret None).

End WithConfig.

(** [event.pathParameters && event.pathParameters.symbol] *)
Definition path_symbol (event : JsVal) : Exn + JsVal :=
  pp ← Js.get_prop event "pathParameters";
  if Js.truthy pp then Js.get_prop pp "symbol" else mret pp.

(** [event.queryStringParameters && event.queryStringParameters.symbols] *)
Definition query_symbols (event : JsVal) : Exn + JsVal :=
  qp ← Js.get_prop event "queryStringParameters";
  if Js.truthy qp then Js.get_prop qp "symbols" else mret qp.

Definition is_array (v : JsVal) : bool :=
  match v with JArr _ => true | _ => false end.

Definition elements (v : JsVal) : list JsVal :=
  match v with JArr l => l | _ => [] end.

(** The four branches that fill [symbols]. *)
Definition resolveSymbols (event : JsVal) : Exn + list string :=
  ps ← path_symbol event;
  if Js.truthy ps then
    symbol ← JsCall.trim "event.pathParameters.symbol" ps;
    mret [JsString.toUpperCase symbol]
  else
    qs ← query_symbols event;
    if Js.truthy qs then
      parts ← JsCall.split_comma "event.queryStringParameters.symbols" qs;
      mret (map (fun s => JsString.toUpperCase (JsString.trim s)) parts)
    else
      es ← Js.get_prop event "symbols";
      if Js.truthy es && is_array es then JsCall.map_trim_upper (elements es)
      else mret DEFAULT_SYMBOLS.

(** The shape of the response: the path-parameter test, made twice. *)
Inductive Shape : Type := SINGLE | MULTI.

Definition responseShape (event : JsVal) : Exn + Shape :=
  ps ← path_symbol event;
  mret (if Js.truthy ps then SINGLE else MULTI).

(** [`${symbols[0]}`] *)
Definition first_symbol (symbols : list string) : string :=
  match symbols with s :: _ => s | [] => "undefined" end.

Section WithWorld.
Context {S : Type} (cfg : Config) (rt : JsRuntime) (w : World S).

(** [symbols.map(fetchQuoteWithCache)], each promise run to its end. *)
Definition resolve_each (symbols : list string) : list (Run S (option QuoteResult)) :=
  imap (fun i symbol => run (service w) (fetchQuoteWithCache cfg rt symbol) (task_state w i))
       symbols.

(** The response built from the settled quotes. *)
Definition compose (event : JsVal) (symbols : list string)
    (quotes : list (option QuoteResult)) : Exn + Response :=
  let validQuotes := omap id quotes in
  shape ← responseShape event;
  match shape with
  | SINGLE =>
      match validQuotes with
      | [] => mret (errorResponse ("Stock symbol '" ++ first_symbol symbols ++ "' not found.")
                      (reply_clock w))
      | q :: _ =>
          mret (successResponse (SingleQuote (first_symbol symbols) q (qr_cached q || false)))
      end
  | MULTI =>
      mret (successResponse
              (MultiQuote (Some true) validQuotes (JsDate.toISOString (reply_clock w))
                 (length (List.filter (fun q => qr_cached q) validQuotes))
                 (length (List.filter (fun q => negb (qr_cached q)) validQuotes))))
  end.

(** The body of the handler's [try] block. *)
Definition handler_try (event : JsVal) : (Exn + Response) * list (list Called) :=
  match resolveSymbols event with
  | inl e => (inl e, [])
  | inr symbols =>
      if (length symbols =? 0)%nat
      then (inr (errorResponse "No symbols provided." (reply_clock w)), [])
      else
        let runs := resolve_each symbols in
        (quotes ← promise_all (map outcome runs); compose event symbols quotes,
         map calls runs)
  end.

Definition handler (event : JsVal) : Invocation :=
  let '(r, cs) := handler_try event in
  {| response :=
       match r with
       | inr resp => resp
       | inl err => errorResponse (JsCall.message_or_unknown err) (reply_clock w)
       end;
     task_calls := cs |}.

End WithWorld.

End Variant.


(** ** Comparing the two copies *)

Module Compare.

(** A response without the [success] flag of the multi-quote payload. *)
Definition erase_success (r : Response) : Response :=
  {| statusCode := statusCode r;
     headers := headers r;
     body := match body r with
             | MultiQuote _ quotes timestamp cached fresh =>
                 MultiQuote None quotes timestamp cached fresh
             | b => b
             end |}.

(** The number of quotes a response carries. *)
Definition quotes_in (r : Response) : nat :=
  match body r with
  | MultiQuote _ quotes _ _ _ => length quotes
  | SingleQuote _ _ _ => 1
  | Failure _ _ _ => 0
  end.

(** Two answers to a cache read that look the same to [getFromCache]. *)
Definition same_entry (r1 r2 : Exn + option Item) : Prop :=
  match r1, r2 with
  | inl _, inl _ => True
  | inr None, inr None => True
  | inr (Some i1), inr (Some i2) =>
      item_data i1 = item_data i2 /\ item_ttl i1 = item_ttl i2
  | _, _ => False
  end.

(** The first copy, with cache table [table1], talking to [srv1] and the
    second, with cache table [table2], talking to [srv2] see the same
    world, as long as their states are related by [R]: reading the clock
    gives the same time on both sides and disturbs nothing, on whichever
    side it is read (the copies read the clock a different number of
    times, so the time stands still while a symbol is processed); a cache
    read under the first copy's key (symbol, dataType = "quote") and one
    under the second copy's key for the current UTC day (symbol, date =
    the day of the clock) find the same entry; and the provider answers
    the same request alike.  Nothing is asked of the writes: their
    results are not observed by either copy. *)
Record corresponds {S1 S2 : Type} (table1 table2 : string)
    (srv1 : Service S1) (srv2 : Service S2) (R : S1 -> S2 -> Prop) : Prop := {
  corr_clock : forall s1 s2, R s1 s2 ->
    fst (answer srv1 DateNow s1) = fst (answer srv2 DateNow s2) /\
    R (snd (answer srv1 DateNow s1)) s2 /\
    R s1 (snd (answer srv2 DateNow s2));
  corr_get : forall s1 s2 symbol, R s1 s2 ->
    let day := Variant.today (fst (answer srv2 DateNow s2)) in
    same_entry
      (fst (answer srv1 (DynamoGet table1 (Primary.cache_key symbol)) s1))
      (fst (answer srv2 (DynamoGet table2 (Variant.cache_key symbol day)) s2)) /\
    R (snd (answer srv1 (DynamoGet table1 (Primary.cache_key symbol)) s1))
      (snd (answer srv2 (DynamoGet table2 (Variant.cache_key symbol day)) s2));
  corr_http : forall s1 s2 url params timeout, R s1 s2 ->
    fst (answer srv1 (AxiosGet url params timeout) s1)
      = fst (answer srv2 (AxiosGet url params timeout) s2) /\
    R (snd (answer srv1 (AxiosGet url params timeout) s1))
      (snd (answer srv2 (AxiosGet url params timeout) s2))
}.

(** The event reaches the fourth branch of the resolver: no path symbol,
    no query parameter and no array in [symbols]. *)
Definition uses_default_list (event : JsVal) : bool :=
  match Primary.path_symbol event with
  | inr ps =>
      negb (Js.truthy ps) &&
      match Primary.query_symbols event with
      | inr qs =>
          negb (Js.truthy qs) &&
          match Js.get_prop event "symbols" with
          | inr es => negb (Js.truthy es && Primary.is_array es)
          | inl _ => false
          end
      | inl _ => false
      end
  | inl _ => false
  end.

End Compare.

(** ** The cache table as a service

    A table that only this code touches: entries are kept by table name,
    partition value and sort value, a read returns what the last write of
    the key left, and a request whose key attribute is not the table's
    sort attribute is rejected.  The clock is part of the state and stands
    still during a run; whoever runs the next program sets it.  There is no
    provider behind this service. *)

Module Table.

Record State : Type := {
  rows : gmap (string * string * string) Item;
  clock : Z
}.

Definition at_time (st : State) (ms : Z) : State :=
  {| rows := rows st; clock := ms |}.

Definition row_of (table : string) (key : Key) : string * string * string :=
  (table, key_symbol key, key_sort_value key).

Definition ValidationException : Exn :=
  mkExn "ValidationException" "The provided key element does not match the schema".

Definition service (sort_attr : string) : Service State :=
  {| answer := fun X (c : Ext X) (st : State) =>
       match c in Ext X return X * State with
       | DynamoGet table key =>
           if String.eqb (key_sort_name key) sort_attr
           then (inr (rows st !! row_of table key), st)
           else (inl ValidationException, st)
       | DynamoPut table item =>
           if String.eqb (key_sort_name (item_key item)) sort_attr
           then (inr tt, {| rows := <[row_of table (item_key item) := item]> (rows st);
                            clock := clock st |})
           else (inl ValidationException, st)
       | AxiosGet _ _ _ => (inl (Error "Network Error"), st)
       | DateNow => (clock st, st)
       end |}.

End Table.

(** ** Sample data for the concrete instances below *)

Module Sample.

(** A runtime in the shape of the engine's: a string parses to a fixed
    number; an object with a field [toString] of its own (which, in a
    parsed payload, is never a function) has no primitive value, and
    converting it, or an array that holds it, throws; everything else
    parses to NaN. *)
Fixpoint unconvertible (v : JsVal) : bool :=
  match v with
  | JObj fields => existsb (fun kv => String.eqb (fst kv) "toString") fields
  | JArr elems => existsb unconvertible elems
  | _ => false
  end.

Definition cannot_convert : Exn := TypeError "Cannot convert object to primitive value".

Definition runtime : JsRuntime :=
  {| parseFloat := fun v =>
       match v with
       | JStr _ => inr 189.5%float
       | _ => if unconvertible v then inl cannot_convert else inr nan
       end;
     parseInt := fun v =>
       match v with
       | JStr _ => inr 52000000%float
       | _ => if unconvertible v then inl cannot_convert else inr nan
       end;
     toText := fun v =>
       match v with
       | JStr s => inr s
       | _ => if unconvertible v then inl cannot_convert else inr "[object Object]"
       end |}.

Definition config : Config := Primary.default_config (Some "demo").

Definition quote (symbol : string) : Quote :=
  {| q_symbol := symbol; q_price := 189.5; q_change := 189.5; q_changePct := 189.5;
     q_volume := 52000000; q_latestTradingDay := JStr "2024-01-12";
     q_previousClose := 189.5; q_open := 189.5; q_high := 189.5; q_low := 189.5 |}.

(** The provider's payload for a known symbol. *)
Definition payload : JsVal :=
  JObj [("Global Quote",
         JObj [("01. symbol", JStr "AAPL"); ("02. open", JStr "187.10");
               ("03. high", JStr "190.20"); ("04. low", JStr "186.90");
               ("05. price", JStr "189.50"); ("06. volume", JStr "52000000");
               ("07. latest trading day", JStr "2024-01-12");
               ("08. previous close", JStr "188.00"); ("09. change", JStr "1.50");
               ("10. change percent", JStr "0.7979%")])].

(** The provider's payload for a symbol it does not know. *)
Definition no_data : JsVal := JObj [("Global Quote", JObj [])].

Definition item (symbol : string) (ttl : Z) : Item :=
  {| item_key := Primary.cache_key symbol; item_data := quote symbol;
     item_ttl := ttl; item_timestamp := (ttl - 45)%Z;
     item_updatedAt := "2024-01-15T10:30:00.000Z" |}.

(** 2024-01-15T10:30:00Z *)
Definition noon : Z := 1705314600000.

(** A service without memory: the same answer to every read, request and
    write, and a clock that stands still. *)
Definition fixed (get : Exn + option Item) (http : Exn + JsVal) (put : Exn + unit)
    (ms : Z) : Service unit :=
  {| answer := fun X (c : Ext X) (s : unit) =>
       match c in Ext X return X * unit with
       | DynamoGet _ _ => (get, s)
       | DynamoPut _ _ => (put, s)
       | AxiosGet _ _ _ => (http, s)
       | DateNow => (ms, s)
       end |}.

Definition world (srv : Service unit) : World unit :=
  {| service := srv; task_state := fun _ => tt; reply_clock := noon |}.

(** A world in which the cache is empty, the provider knows every symbol
    and writes succeed. *)
Definition open_world : World unit :=
  world (fixed (inr None) (inr payload) (inr tt) noon).

End Sample.

Module SampleTasks.

(** A service whose state is the number of the promise it serves: the
    cache is empty, the provider knows every symbol except the one that
    promise [unknown] asks for, and writes succeed. *)
Definition by_task (unknown : nat) : Service nat :=
  {| answer := fun X (c : Ext X) (i : nat) =>
       match c in Ext X return X * nat with
       | DynamoGet _ _ => (inr None, i)
       | DynamoPut _ _ => (inr tt, i)
       | AxiosGet _ _ _ =>
           (inr (if (i =? unknown)%nat then Sample.no_data else Sample.payload), i)
       | DateNow => (Sample.noon, i)
       end |}.

Definition world (unknown : nat) : World nat :=
  {| service := by_task unknown; task_state := fun i => i;
     reply_clock := Sample.noon |}.

(** [GET /stock?symbols=aapl, zzzz] *)
Definition query_event : JsVal :=
  JObj [("queryStringParameters", JObj [("symbols", JStr "aapl, zzzz")])].

(** [GET /stock/zzzz] *)
Definition path_event : JsVal :=
  JObj [("pathParameters", JObj [("symbol", JStr "zzzz")])].

End SampleTasks.

(** ** Further notions used by the properties of the handler *)

Module Observe.

Definition is_get (c : Called) : bool :=
  match projT2 c with DynamoGet _ _ => true | _ => false end.



(** A value on which [v?.replace("%", "")] does not throw. *)
Definition replaceable (v : JsVal) : bool :=
  match v with
  | JUndefined | JNull | JStr _ => true
  | _ => false
  end.

(** [global[name]] for a truthy [global]. *)
Definition field (global : JsVal) (name : string) : JsVal :=
  match Js.get_prop global name with
  | inr v => v
  | inl _ => JUndefined
  end.

(** [v?.replace("%", "")] for a [v] on which it does not throw. *)
Definition percent_text (v : JsVal) : JsVal :=
  match v with
  | JStr s => JStr (JsString.remove_first "%" s)
  | _ => JUndefined
  end.

Definition succeeds {A : Type} (r : Exn + A) : Prop := exists a, r = inr a.

(** The engine converts each numeric field of the "Global Quote" object
    without throwing. *)
Definition conversions_succeed (rt : JsRuntime) (global : JsVal) : Prop :=
  succeeds (parseFloat rt (field global "05. price")) /\
  succeeds (parseFloat rt (field global "09. change")) /\
  succeeds (parseFloat rt (percent_text (field global "10. change percent"))) /\
  succeeds (parseInt rt (field global "06. volume")) /\
  succeeds (parseFloat rt (field global "08. previous close")) /\
  succeeds (parseFloat rt (field global "02. open")) /\
  succeeds (parseFloat rt (field global "03. high")) /\
  succeeds (parseFloat rt (field global "04. low")).

(** How often a character occurs in a string. *)
Fixpoint count_char (c : ascii) (s : string) : nat :=
  match s with
  | EmptyString => 0
  | String d r => (if Ascii.eqb d c then 1 else 0) + count_char c r
  end.

(** The part of a string before the first occurrence of a character. *)
Definition first_segment (c : ascii) (s : string) : string :=
  match JsString.split c s with
  | d :: _ => d
  | [] => "undefined"
  end.

Definition is_string (v : JsVal) : bool :=
  match v with JStr _ => true | _ => false end.

Definition is_failure (b : Body) : bool :=
  match b with Failure _ _ _ => true | _ => false end.

(** The events on which the resolver of the first handler throws: the
    event itself is [null] or [undefined]; or the first source that is
    present is not of the expected type: a path symbol or a query parameter
    that is not a string, or a [symbols] array with an element that is not
    a string. *)
Inductive malformed (event : JsVal) : Prop :=
| mal_event :
    event = JNull \/ event = JUndefined -> malformed event
| mal_path ps :
    Primary.path_symbol event = inr ps -> Js.truthy ps = true ->
    is_string ps = false -> malformed event
| mal_query ps qs :
    Primary.path_symbol event = inr ps -> Js.truthy ps = false ->
    Primary.query_symbols event = inr qs -> Js.truthy qs = true ->
    is_string qs = false -> malformed event
| mal_list ps qs elems v :
    Primary.path_symbol event = inr ps -> Js.truthy ps = false ->
    Primary.query_symbols event = inr qs -> Js.truthy qs = false ->
    Js.get_prop event "symbols" = inr (JArr elems) ->
    In v elems -> is_string v = false -> malformed event.

End Observe.

(** The cache table together with a provider: reads and writes go to the
    table as in [Table.service], and a request is answered by [provider]
    from the request's parameters. *)
Module Backend.

Definition service (sort_attr : string)
    (provider : list (string * string) -> Exn + JsVal) : Service Table.State :=
  {| answer := fun X (c : Ext X) (st : Table.State) =>
       match c in Ext X return X * Table.State with
       | AxiosGet _ params _ => (provider params, st)
       | c' => answer (Table.service sort_attr) c' st
       end |}.

(** The entry that the first handler's [saveToCache] writes at clock
    [ms]. *)
Definition stored_item (cfg : Config) (symbol : string) (q : Quote) (ms : Z) : Item :=
  {| item_key := Primary.cache_key symbol;
     item_data := q;
     item_ttl := (JsDate.epoch_seconds ms + CACHE_TTL cfg)%Z;
     item_timestamp := JsDate.epoch_seconds ms;
     item_updatedAt := JsDate.toISOString ms |}.

(** The entry that the second handler's [saveToCache] writes at clock
    [ms]. *)
Definition variant_item (cfg : Config) (symbol : string) (q : Quote) (ms : Z) : Item :=
  {| item_key := Variant.cache_key symbol (Variant.today ms);
     item_data := q;
     item_ttl := (JsDate.epoch_seconds ms + CACHE_TTL cfg)%Z;
     item_timestamp := JsDate.epoch_seconds ms;
     item_updatedAt := JsDate.toISOString ms |}.

(** A provider that knows every symbol, and a table without entries. *)
Definition sample_provider (params : list (string * string)) : Exn + JsVal :=
  inr Sample.payload.

Definition empty_table : Table.State := {| Table.rows := ∅; Table.clock := 0 |}.

End Backend.

Module TwoTables.

(** A table of the first copy and a table of the second copy that hold
    the same entries for today: for every symbol, the entry under (symbol,
    "quote") in the first and the entry under (symbol, day of the clock) in
    the second are both missing or carry the same quote and expiry; and
    the clocks agree. *)
Definition same_entries_today (table1 table2 : string) (st1 st2 : Table.State) : Prop :=
  Table.clock st1 = Table.clock st2 /\
  forall symbol,
    Compare.same_entry
      (inr (Table.rows st1 !! (table1, symbol, "quote")))
      (inr (Table.rows st2 !! (table2, symbol, Variant.today (Table.clock st1)))).

(** Each copy with the defaults of its own file (table
    "stock-price-cache" and 45 seconds for the first, table
    "stock-prices-cache" and 300 seconds for the second), and the same API
    key. *)
Definition primary_config : Config := Primary.default_config (Some "demo").
Definition variant_config : Config := Variant.default_config (Some "demo").

(** A table of each copy, at [Sample.noon], with an AAPL entry under the
    copy's own key that expires 45 seconds later: the first copy wrote its
    entry just now, the second wrote its entry 255 seconds ago. *)
Definition primary_table : Table.State :=
  {| Table.rows := {[ ("stock-price-cache", "AAPL", "quote")
                      := Backend.stored_item primary_config "AAPL" (Sample.quote "AAPL")
                           Sample.noon ]};
     Table.clock := Sample.noon |}.

Definition variant_table : Table.State :=
  {| Table.rows := {[ ("stock-prices-cache", "AAPL", "2024-01-15")
                      := Backend.variant_item variant_config "AAPL" (Sample.quote "AAPL")
                           (Sample.noon - 255000) ]};
     Table.clock := Sample.noon |}.

Definition primary_world : World Table.State :=
  {| service := Backend.service "dataType" Backend.sample_provider;
     task_state := fun _ => primary_table;
     reply_clock := Sample.noon |}.

Definition variant_world : World Table.State :=
  {| service := Backend.service "date" Backend.sample_provider;
     task_state := fun _ => variant_table;
     reply_clock := Sample.noon |}.

End TwoTables.

(** ** Running programs: the equations of [run] *)

Section RunFacts.
Context {S : Type} (srv : Service S).

Lemma run_bind {A B : Type} (p : Prog A) (f : A -> Prog B) (s : S) :
  run srv (p ≫= f) s =
    let r1 := run srv p s in
    match outcome r1 with
    | Returned a =>
        let r2 := run srv (f a) (final r1) in
        {| outcome := outcome r2; calls := calls r1 ++ calls r2; final := final r2 |}
    | Thrown e => {| outcome := Thrown e; calls := calls r1; final := final r1 |}
    end.
Proof.
  revert s. induction p as [a | e | X c k IH]; intros s; simpl.
  - unfold mbind, Prog_bind. simpl. destruct (run srv (f a) s); reflexivity.
  - reflexivity.
  - unfold mbind, Prog_bind in *. simpl.
    destruct (answer srv c s) as [x s']. simpl.
    rewrite IH. simpl.
    destruct (outcome (run srv (k x) s')); reflexivity.
Qed.

Lemma run_try_catch {A : Type} (p : Prog A) (h : Exn -> Prog A) (s : S) :
  run srv (try_catch p h) s =
    let r1 := run srv p s in
    match outcome r1 with
    | Returned a => r1
    | Thrown e =>
        let r2 := run srv (h e) (final r1) in
        {| outcome := outcome r2; calls := calls r1 ++ calls r2; final := final r2 |}
    end.
Proof.
  revert s. induction p as [a | e | X c k IH]; intros s; simpl.
  - reflexivity.
  - destruct (run srv (h e) s); reflexivity.
  - destruct (answer srv c s) as [x s']. simpl.
    rewrite IH. simpl.
    destruct (outcome (run srv (k x) s')) eqn:E; [| reflexivity].
    destruct (run srv (k x) s'); simpl in *; subst; reflexivity.
Qed.

(** A [try] whose [catch] block returns a value never throws. *)
Lemma try_catch_returns {A : Type} (p : Prog A) (v : A) (s : S) :
  exists a, outcome (run srv (try_catch p (fun _ => mret v)) s) = Returned a.
Proof.
  rewrite run_try_catch. simpl.
  destruct (outcome (run srv p s)) eqn:E; eauto.
Qed.

End RunFacts.

(** Case analysis on the answers of the service that the goal mentions. *)
Ltac destruct_answers :=
  repeat (cbv zeta;
          match goal with
          | |- context [let '(_, _) := answer ?srv ?c ?s in _] =>
              destruct (answer srv c s) as [? ?]
          end).

(** Case analysis on every property read and every conversion of the
    runtime that the goal mentions. *)
Ltac crack_conversions :=
  repeat (simpl;
          match goal with
          | |- context [Js.get_prop ?g ?n] => destruct (Js.get_prop g n)
          | |- context [parseFloat ?rt ?v] => destruct (parseFloat rt v)
          | |- context [parseInt ?rt ?v] => destruct (parseInt rt v)
          | |- context [JsCall.opt_replace_percent _ ?v] => destruct v
          end);
  simpl.

(** ** Trimming and upper-casing *)

Module JsStringFacts.
Import JsString.

Lemma is_whitespace_upper_char (c : ascii) :
  is_whitespace (upper_char c) = is_whitespace c.
Proof. destruct c as [[] [] [] [] [] [] [] []]; reflexivity. Qed.

Lemma upper_char_idem (c : ascii) : upper_char (upper_char c) = upper_char c.
Proof. destruct c as [[] [] [] [] [] [] [] []]; reflexivity. Qed.

Lemma toUpperCase_idem (s : string) : toUpperCase (toUpperCase s) = toUpperCase s.
Proof.
  induction s as [| c s IH]; simpl; [reflexivity |].
  rewrite upper_char_idem, IH. reflexivity.
Qed.

Lemma trimStart_toUpperCase (s : string) :
  trimStart (toUpperCase s) = toUpperCase (trimStart s).
Proof.
  induction s as [| c s IH]; simpl; [reflexivity |].
  rewrite is_whitespace_upper_char. destruct (is_whitespace c); [exact IH | reflexivity].
Qed.

Lemma trimEnd_toUpperCase (s : string) :
  trimEnd (toUpperCase s) = toUpperCase (trimEnd s).
Proof.
  induction s as [| c s IH]; simpl; [reflexivity |].
  rewrite IH, is_whitespace_upper_char.
  destruct (trimEnd s) as [| d r]; simpl.
  - destruct (is_whitespace c); reflexivity.
  - reflexivity.
Qed.

Lemma trim_toUpperCase (s : string) : trim (toUpperCase s) = toUpperCase (trim s).
Proof. unfold trim. rewrite trimStart_toUpperCase, trimEnd_toUpperCase. reflexivity. Qed.

Lemma trimEnd_idem (s : string) : trimEnd (trimEnd s) = trimEnd s.
Proof.
  induction s as [| c s IH]; simpl; [reflexivity |].
  destruct (trimEnd s) as [| d r] eqn:E.
  - destruct (is_whitespace c) eqn:W; simpl; [reflexivity |].
    rewrite W. reflexivity.
  - simpl in *. rewrite IH. reflexivity.
Qed.

(** Trimming the end keeps a first character that is not white space. *)
Lemma trimStart_trimEnd (s : string) :
  trimStart s = s -> trimStart (trimEnd s) = trimEnd s.
Proof.
  destruct s as [| c s]; simpl; [reflexivity |].
  destruct (is_whitespace c) eqn:W.
  - intros H. exfalso.
    assert (Hlen : forall t, String.length (trimStart t) <= String.length t).
    { induction t as [| d t IHt]; simpl; [lia |].
      destruct (is_whitespace d); simpl; lia. }
    specialize (Hlen s). rewrite H in Hlen. simpl in Hlen. lia.
  - intros _. destruct (trimEnd s); simpl; rewrite W; reflexivity.
Qed.

Lemma trimStart_idem (s : string) : trimStart (trimStart s) = trimStart s.
Proof.
  induction s as [| c s IH]; simpl; [reflexivity |].
  destruct (is_whitespace c) eqn:W; [exact IH |].
  simpl. rewrite W. reflexivity.
Qed.

Lemma trim_idem (s : string) : trim (trim s) = trim s.
Proof.
  unfold trim.
  rewrite (trimStart_trimEnd (trimStart s) (trimStart_idem s)).
  apply trimEnd_idem.
Qed.

Lemma normalized_trim_upper (s : string) : normalized (toUpperCase (trim s)).
Proof.
  unfold normalized.
  rewrite trim_toUpperCase, trim_idem, toUpperCase_idem. reflexivity.
Qed.

(** [split] never returns an empty array. *)
Lemma split_not_nil (sep : ascii) (s : string) : split sep s <> [].
Proof.
  induction s as [| c s IH]; simpl; [discriminate |].
  destruct (Ascii.eqb c sep); [discriminate |].
  destruct (split sep s); discriminate.
Qed.

End JsStringFacts.

(** ** The cache and the orchestrator of the primary handler *)

Module PrimaryFacts.
Import Primary.

Section PerSymbol.
Context {S : Type} (srv : Service S) (cfg : Config) (rt : JsRuntime).

(** What [getFromCache] does, by the answer to its read and the clock. *)
Lemma run_getFromCache (symbol : string) (s : S) :
  run srv (getFromCache cfg symbol) s =
    let get := DynamoGet (CACHE_TABLE cfg) (cache_key symbol) in
    let '(reply, s1) := answer srv get s in
    match reply with
    | inr (Some item) =>
        let '(ms, s2) := answer srv DateNow s1 in
        {| outcome := Returned (if (JsDate.epoch_seconds ms <? item_ttl item)%Z
                                then Some (item_data item) else None);
           calls := [called get; called DateNow];
           final := s2 |}
    | _ => {| outcome := Returned None; calls := [called get]; final := s1 |}
    end.
Proof.
  unfold getFromCache. simpl.
  destruct (answer srv _ s) as [[e | [item |]] s1]; simpl; try reflexivity.
  destruct (answer srv DateNow s1) as [ms s2]; simpl.
  destruct (JsDate.epoch_seconds ms <? item_ttl item)%Z; reflexivity.
Qed.

(** [saveToCache] reads the clock twice, writes once, and returns whatever
    the write answers. *)
Lemma run_saveToCache (symbol : string) (data : Quote) (s : S) :
  run srv (saveToCache cfg symbol data) s =
    let '(ms, s1) := answer srv DateNow s in
    let '(ms', s2) := answer srv DateNow s1 in
    let put :=
      DynamoPut (CACHE_TABLE cfg)
        {| item_key := cache_key symbol;
           item_data := data;
           item_ttl := (JsDate.epoch_seconds ms + CACHE_TTL cfg)%Z;
           item_timestamp := JsDate.epoch_seconds ms;
           item_updatedAt := JsDate.toISOString ms' |} in
    let '(reply, s3) := answer srv put s2 in
    {| outcome := Returned tt;
       calls := [called DateNow; called DateNow; called put];
       final := s3 |}.
Proof.
  unfold saveToCache. simpl.
  destruct (answer srv DateNow s) as [ms s1]; simpl.
  destruct (answer srv DateNow s1) as [ms' s2]; simpl.
  destruct (answer srv _ s2) as [[e | []] s3]; reflexivity.
Qed.

(** [fetchFromAlphaVantage] settles with a value whatever happens, and
    makes at most one call, the request to the provider. *)
Lemma run_fetchFromAlphaVantage (symbol : string) (s : S) :
  exists r,
    outcome (run srv (fetchFromAlphaVantage cfg rt symbol) s) = Returned r /\
    (api_key_missing cfg = true ->
       r = None /\
       calls (run srv (fetchFromAlphaVantage cfg rt symbol) s) = [] /\
       final (run srv (fetchFromAlphaVantage cfg rt symbol) s) = s) /\
    (api_key_missing cfg = false ->
       calls (run srv (fetchFromAlphaVantage cfg rt symbol) s)
         = [called (provider_request cfg symbol)] /\
       final (run srv (fetchFromAlphaVantage cfg rt symbol) s)
         = snd (answer srv (provider_request cfg symbol) s)).
Proof.
  unfold fetchFromAlphaVantage, provider_request.
  destruct (api_key_missing cfg) eqn:K.
  - simpl. exists None. repeat split; intros; try discriminate; reflexivity.
  - simpl. destruct (answer srv _ s) as [reply s1]. simpl.
    match goal with
    | |- context [run srv (try_catch ?p ?h) s1] =>
        assert (Hc : calls (run srv (try_catch p h) s1) = [] /\
                     final (run srv (try_catch p h) s1) = s1 /\
                     exists r, outcome (run srv (try_catch p h) s1) = Returned r)
    end.
    { destruct reply as [e | data]; simpl; [eauto |].
      destruct (Js.get_prop data "Error Message") as [e | em]; simpl; [eauto |].
      destruct (Js.truthy em); simpl; [destruct (toText rt em); simpl; eauto |].
      destruct (Js.get_prop data "Note") as [e | note]; simpl; [eauto |].
      destruct (Js.truthy note); simpl; [eauto |].
      destruct (Js.get_prop data "Global Quote") as [e | global]; simpl; [eauto |].
      destruct (negb (Js.truthy global) || (Js.keys_length global =? 0)%nat);
        simpl; [eauto |].
      destruct (parse_quote rt symbol global); simpl; eauto. }
    destruct Hc as (Hc & Hf & r & Hr).
    exists r. rewrite Hc, Hf, Hr. repeat split; intros; try discriminate; reflexivity.
Qed.

(** The orchestrator, by the runs of its three steps. *)
Lemma run_fetchQuoteWithCache (symbol : string) (s : S) :
  run srv (fetchQuoteWithCache cfg rt symbol) s =
    let r1 := run srv (getFromCache cfg symbol) s in
    match outcome r1 with
    | Returned (Some q) =>
        {| outcome := Returned (Some {| qr_quote := q; qr_cached := true |});
           calls := calls r1; final := final r1 |}
    | Returned None =>
        let r2 := run srv (fetchFromAlphaVantage cfg rt symbol) (final r1) in
        match outcome r2 with
        | Returned (Some q) =>
            let r3 := run srv (saveToCache cfg symbol q) (final r2) in
            {| outcome := Returned (Some {| qr_quote := q; qr_cached := false |});
               calls := calls r1 ++ calls r2 ++ calls r3; final := final r3 |}
        | _ =>
            {| outcome := Returned None; calls := calls r1 ++ calls r2;
               final := final r2 |}
        end
    | Thrown e => {| outcome := Returned None; calls := calls r1; final := final r1 |}
    end.
Proof.
  unfold fetchQuoteWithCache.
  rewrite run_try_catch, run_bind. cbv zeta.
  destruct (outcome (run srv (getFromCache cfg symbol) s)) as [[q |] | e] eqn:E1;
    cbn [outcome calls final run mret Prog_ret].
  - rewrite app_nil_r. reflexivity.
  - rewrite run_bind. cbv zeta.
    destruct (outcome (run srv (fetchFromAlphaVantage cfg rt symbol) _))
      as [[q |] | e] eqn:E2; cbn [outcome calls final run mret Prog_ret].
    + rewrite run_bind. cbv zeta.
      assert (Hs : outcome (run srv (saveToCache cfg symbol q)
                     (final (run srv (fetchFromAlphaVantage cfg rt symbol)
                        (final (run srv (getFromCache cfg symbol) s))))) = Returned tt).
      { rewrite run_saveToCache. destruct_answers. reflexivity. }
      rewrite Hs. cbn [outcome calls final run mret Prog_ret].
      rewrite app_nil_r. reflexivity.
    + rewrite app_nil_r. reflexivity.
    + rewrite app_nil_r. reflexivity.
  - rewrite app_nil_r. reflexivity.
Qed.

(** No exception leaves [fetchQuoteWithCache]. *)
Lemma fetchQuoteWithCache_settles (symbol : string) (s : S) :
  exists r, outcome (run srv (fetchQuoteWithCache cfg rt symbol) s) = Returned r.
Proof. apply try_catch_returns. Qed.

(** C1: when the cache read for a symbol answers with an entry whose
    expiry is later than the clock, [fetchQuoteWithCache] settles with that
    entry's quote marked [cached: true]; the only calls it makes are the
    read and the clock, so no request goes to the provider. *)
Theorem fresh_entry_served_from_cache (symbol : string) (s s1 s2 : S)
    (item : Item) (ms : Z) :
  answer srv (DynamoGet (CACHE_TABLE cfg) (cache_key symbol)) s = (inr (Some item), s1) ->
  answer srv DateNow s1 = (ms, s2) ->
  (JsDate.epoch_seconds ms < item_ttl item)%Z ->
  outcome (run srv (fetchQuoteWithCache cfg rt symbol) s)
    = Returned (Some {| qr_quote := item_data item; qr_cached := true |}) /\
  calls (run srv (fetchQuoteWithCache cfg rt symbol) s)
    = [called (DynamoGet (CACHE_TABLE cfg) (cache_key symbol)); called DateNow] /\
  List.filter is_http (calls (run srv (fetchQuoteWithCache cfg rt symbol) s)) = [].
Proof.
  intros Hget Hnow Hfresh.
  rewrite run_fetchQuoteWithCache, run_getFromCache. cbv zeta.
  rewrite Hget, Hnow.
  apply Z.ltb_lt in Hfresh. rewrite Hfresh.
  cbn [outcome calls final]. repeat split; reflexivity.
Qed.

(** C2: [getFromCache] returns a quote exactly when the read of the key
    (symbol, dataType = "quote") answers with an entry whose expiry is
    greater than the clock in seconds, and then it is the entry's quote; a
    missing entry, an entry whose expiry is not greater than the clock, and
    a failed read all give the same result, [null]. *)
Theorem lookup_returns_fresh_entries_only (symbol : string) (s : S) :
  let get := DynamoGet (CACHE_TABLE cfg) (cache_key symbol) in
  let reply := fst (answer srv get s) in
  let now_s := JsDate.epoch_seconds (fst (answer srv DateNow (snd (answer srv get s)))) in
  let result := outcome (run srv (getFromCache cfg symbol) s) in
  (forall q, result = Returned (Some q) <->
             exists item, reply = inr (Some item) /\
                          (now_s < item_ttl item)%Z /\ q = item_data item) /\
  (result = Returned None <->
     reply = inr None \/
     (exists item, reply = inr (Some item) /\ (item_ttl item <= now_s)%Z) \/
     (exists e, reply = inl e)) /\
  hd_error (calls (run srv (getFromCache cfg symbol) s)) = Some (called get).
Proof.
  cbv zeta. rewrite run_getFromCache. cbv zeta.
  destruct (answer srv (DynamoGet (CACHE_TABLE cfg) (cache_key symbol)) s)
    as [[e | [item |]] s1]; cbn [fst snd outcome calls hd_error].
  - repeat split; try reflexivity.
    + intros H. discriminate.
    + intros (item & H & _). discriminate.
    + intros _. right. right. eauto.
  - destruct (answer srv DateNow s1) as [ms s2]; cbn [fst snd outcome calls hd_error].
    destruct (Z.ltb_spec (JsDate.epoch_seconds ms) (item_ttl item)) as [Hlt | Hge].
    + repeat split; try reflexivity.
      * intros H. injection H as <-. exists item. auto.
      * intros (item' & H & _ & ->). injection H as <-. reflexivity.
      * intros H. discriminate.
      * intros [H | [(item' & H & Hle) | (e & H)]]; try discriminate.
        injection H as <-. lia.
    + repeat split; try reflexivity.
      * intros H. discriminate.
      * intros (item' & H & Hlt & _). injection H as <-. lia.
      * intros _. right. left. eauto.
  - repeat split; try reflexivity.
    + intros H. discriminate.
    + intros (item & H & _). discriminate.
    + intros _. left. reflexivity.
Qed.

(** The calls of a cache lookup and of a provider fetch are never writes. *)
Lemma getFromCache_no_put (symbol : string) (s : S) :
  List.filter is_put (calls (run srv (getFromCache cfg symbol) s)) = [].
Proof.
  rewrite run_getFromCache. destruct_answers.
  match goal with
  | |- context [match ?reply with inl _ => _ | inr _ => _ end] =>
      destruct reply as [e | [item |]]
  end; destruct_answers; reflexivity.
Qed.

Lemma fetchFromAlphaVantage_no_put (symbol : string) (s : S) :
  List.filter is_put (calls (run srv (fetchFromAlphaVantage cfg rt symbol) s)) = [].
Proof.
  destruct (run_fetchFromAlphaVantage symbol s) as (r & _ & Hm & Hk).
  destruct (api_key_missing cfg).
  - destruct Hm as (_ & -> & _); reflexivity.
  - destruct Hk as (-> & _); reflexivity.
Qed.

(** C4: on a cache miss followed by a successful provider fetch,
    [fetchQuoteWithCache] makes exactly one write to the cache, of the
    fetched quote with expiry = clock in seconds + [CACHE_TTL], and settles
    with the fetched quote marked [cached: false].  The service is
    arbitrary, so this holds whether the write succeeds or is rejected. *)
Theorem fetched_quote_stored_once (symbol : string) (s : S) (q : Quote) :
  let r1 := run srv (getFromCache cfg symbol) s in
  let r2 := run srv (fetchFromAlphaVantage cfg rt symbol) (final r1) in
  let ms := fst (answer srv DateNow (final r2)) in
  let ms' := fst (answer srv DateNow (snd (answer srv DateNow (final r2)))) in
  outcome r1 = Returned None ->
  outcome r2 = Returned (Some q) ->
  outcome (run srv (fetchQuoteWithCache cfg rt symbol) s)
    = Returned (Some {| qr_quote := q; qr_cached := false |}) /\
  List.filter is_put (calls (run srv (fetchQuoteWithCache cfg rt symbol) s))
    = [called (DynamoPut (CACHE_TABLE cfg)
                 {| item_key := cache_key symbol;
                    item_data := q;
                    item_ttl := (JsDate.epoch_seconds ms + CACHE_TTL cfg)%Z;
                    item_timestamp := JsDate.epoch_seconds ms;
                    item_updatedAt := JsDate.toISOString ms' |})].
Proof.
  cbv zeta. intros Hmiss Hfetch.
  rewrite run_fetchQuoteWithCache. cbv zeta. rewrite Hmiss, Hfetch.
  cbn [outcome calls final]. split; [reflexivity |].
  rewrite !List.filter_app, getFromCache_no_put, fetchFromAlphaVantage_no_put.
  rewrite run_saveToCache. cbv zeta.
  destruct (answer srv DateNow _) as [ms s1]; cbn [fst snd].
  destruct (answer srv DateNow s1) as [ms' s2]; cbn [fst snd].
  destruct (answer srv _ s2) as [reply s3]. reflexivity.
Qed.

(** Each kind of provider failure makes [fetchFromAlphaVantage] return
    [null]. *)
Lemma provider_error_returns_null (symbol : string) (s : S) (kind : ErrorKind) :
  provider_error cfg (fst (answer srv (provider_request cfg symbol) s)) kind ->
  outcome (run srv (fetchFromAlphaVantage cfg rt symbol) s) = Returned None.
Proof.
  intros H. unfold fetchFromAlphaVantage.
  destruct (api_key_missing cfg) eqn:K; [reflexivity |].
  simpl. destruct (answer srv (provider_request cfg symbol) s) as [reply s1].
  simpl in *.
  assert (Hdata : forall data name v,
            Js.get_prop data name = inr v ->
            forall name', exists v', Js.get_prop data name' = inr v').
  { intros data name v Hv name'. destruct data; simpl in *; try discriminate; eauto. }
  destruct H as [Hk | e -> | data v -> Hv Ht | data v -> Hv Ht | data g -> Hg Hempty].
  - congruence.
  - reflexivity.
  - simpl. rewrite Hv. simpl. rewrite Ht. simpl.
    destruct (toText rt v); reflexivity.
  - simpl. destruct (Hdata _ _ _ Hv "Error Message") as [em ->]. simpl.
    destruct (Js.truthy em); [simpl; destruct (toText rt em); reflexivity |]. simpl.
    rewrite Hv. simpl. rewrite Ht. reflexivity.
  - simpl. destruct (Hdata _ _ _ Hg "Error Message") as [em ->]. simpl.
    destruct (Js.truthy em); [simpl; destruct (toText rt em); reflexivity |]. simpl.
    destruct (Hdata _ _ _ Hg "Note") as [note ->]. simpl.
    destruct (Js.truthy note); [reflexivity |]. simpl.
    rewrite Hg. simpl.
    assert (Hc : negb (Js.truthy g) || (Js.keys_length g =? 0)%nat = true).
    { destruct Hempty as [-> | ->]; [reflexivity | apply orb_true_r]. }
    rewrite Hc. reflexivity.
Qed.

End PerSymbol.

(** A fresh entry for AAPL and a provider that would fail. *)
Lemma fresh_entry_served_from_cache_witness :
  outcome (run (Sample.fixed (inr (Some (Sample.item "AAPL" 1705314645)))
                  (inl (Error "Network Error")) (inr tt) Sample.noon)
             (fetchQuoteWithCache Sample.config Sample.runtime "AAPL") tt)
    = Returned (Some {| qr_quote := Sample.quote "AAPL"; qr_cached := true |}) /\
  calls (run (Sample.fixed (inr (Some (Sample.item "AAPL" 1705314645)))
                (inl (Error "Network Error")) (inr tt) Sample.noon)
           (fetchQuoteWithCache Sample.config Sample.runtime "AAPL") tt)
    = [called (DynamoGet "stock-price-cache" (cache_key "AAPL")); called DateNow] /\
  List.filter is_http
    (calls (run (Sample.fixed (inr (Some (Sample.item "AAPL" 1705314645)))
                   (inl (Error "Network Error")) (inr tt) Sample.noon)
              (fetchQuoteWithCache Sample.config Sample.runtime "AAPL") tt)) = [].
Proof.
  apply (fresh_entry_served_from_cache
           (Sample.fixed (inr (Some (Sample.item "AAPL" 1705314645)))
              (inl (Error "Network Error")) (inr tt) Sample.noon)
           Sample.config Sample.runtime "AAPL" tt tt tt
           (Sample.item "AAPL" 1705314645) Sample.noon);
    [reflexivity | reflexivity | vm_compute; reflexivity].
Defined.

(** An entry that expires 45 seconds after the lookup. *)
Lemma lookup_returns_fresh_entries_only_witness :
  outcome (run (Sample.fixed (inr (Some (Sample.item "AAPL" 1705314645)))
                  (inl (Error "Network Error")) (inr tt) Sample.noon)
             (getFromCache Sample.config "AAPL") tt)
    = Returned (Some (Sample.quote "AAPL")).
Proof.
  apply (proj1 (lookup_returns_fresh_entries_only
                  (Sample.fixed (inr (Some (Sample.item "AAPL" 1705314645)))
                     (inl (Error "Network Error")) (inr tt) Sample.noon)
                  Sample.config "AAPL" tt) (Sample.quote "AAPL")).
  exists (Sample.item "AAPL" 1705314645).
  split; [reflexivity | split; [vm_compute; reflexivity | reflexivity]].
Defined.

(** An empty cache, a provider that answers, and a table that rejects the
    write. *)
Lemma fetched_quote_stored_once_witness :
  outcome (run (Sample.fixed (inr None) (inr Sample.payload)
                  (inl Table.ValidationException) Sample.noon)
             (fetchQuoteWithCache Sample.config Sample.runtime "AAPL") tt)
    = Returned (Some {| qr_quote := Sample.quote "AAPL"; qr_cached := false |}) /\
  List.filter is_put
    (calls (run (Sample.fixed (inr None) (inr Sample.payload)
                   (inl Table.ValidationException) Sample.noon)
              (fetchQuoteWithCache Sample.config Sample.runtime "AAPL") tt))
    = [called (DynamoPut "stock-price-cache"
                 {| item_key := cache_key "AAPL";
                    item_data := Sample.quote "AAPL";
                    item_ttl := 1705314645;
                    item_timestamp := 1705314600;
                    item_updatedAt := "2024-01-15T10:30:00.000Z" |})].
Proof.
  apply (fetched_quote_stored_once
           (Sample.fixed (inr None) (inr Sample.payload)
              (inl Table.ValidationException) Sample.noon)
           Sample.config Sample.runtime "AAPL" tt (Sample.quote "AAPL"));
    reflexivity.
Defined.

End PrimaryFacts.

(** ** Round trip through the cache table *)

Module TableFacts.
Import Primary PrimaryFacts.

(** C8: after [saveToCache] has written a quote for a symbol into the
    table, [getFromCache] for that symbol, run at any clock whose second is
    before the second of the write plus [CACHE_TTL], returns that very
    quote. *)
Theorem stored_quote_found_before_expiry (cfg : Config) (symbol : string) (q : Quote)
    (st : Table.State) (t_store t_lookup : Z) :
  (JsDate.epoch_seconds t_lookup < JsDate.epoch_seconds t_store + CACHE_TTL cfg)%Z ->
  outcome
    (run (Table.service "dataType") (getFromCache cfg symbol)
       (Table.at_time
          (final (run (Table.service "dataType") (saveToCache cfg symbol q)
                    (Table.at_time st t_store)))
          t_lookup))
    = Returned (Some q).
Proof.
  intros Hfresh.
  rewrite run_getFromCache, run_saveToCache.
  cbn -[Z.add Z.ltb JsDate.epoch_seconds JsDate.toISOString].
  rewrite lookup_insert_eq.
  cbn [outcome item_ttl item_data].
  apply Z.ltb_lt in Hfresh. rewrite Hfresh. reflexivity.
Qed.

(** Stored at 10:30:00, read 44.999 seconds later, with a TTL of 45. *)
Lemma stored_quote_found_before_expiry_witness :
  outcome
    (run (Table.service "dataType") (getFromCache Sample.config "AAPL")
       (Table.at_time
          (final (run (Table.service "dataType")
                    (saveToCache Sample.config "AAPL" (Sample.quote "AAPL"))
                    (Table.at_time {| Table.rows := ∅; Table.clock := 0 |} Sample.noon)))
          (Sample.noon + 44999)))
    = Returned (Some (Sample.quote "AAPL")).
Proof.
  apply (stored_quote_found_before_expiry Sample.config "AAPL" (Sample.quote "AAPL")
           {| Table.rows := ∅; Table.clock := 0 |} Sample.noon (Sample.noon + 44999)).
  vm_compute. reflexivity.
Defined.

End TableFacts.

(** ** The primary handler: fan-out and composition *)

Module PrimaryHandlerFacts.
Import Primary PrimaryFacts.

Lemma promise_all_returned {A : Type} (values : list A) :
  promise_all (map Returned values) = inr values.
Proof.
  induction values as [| a l IH]; simpl; [reflexivity |].
  rewrite IH. reflexivity.
Qed.

Lemma imap_settles {S A B : Type} (f : nat -> A -> Run S B) (l : list A) :
  (forall i x, exists b, outcome (f i x) = Returned b) ->
  exists values, map outcome (imap f l) = map Returned values.
Proof.
  revert f. induction l as [| x l IH]; intros f Hf; simpl.
  - exists []. reflexivity.
  - destruct (Hf 0%nat x) as [b Hb].
    destruct (IH (f ∘ Datatypes.S)) as [values Hv].
    { intros i y. apply Hf. }
    exists (b :: values). simpl. rewrite Hb, Hv. reflexivity.
Qed.

Lemma outcome_lookup {S A : Type} (runs : list (Run S A)) (values : list A)
    (i : nat) (r : Run S A) :
  map outcome runs = map Returned values ->
  runs !! i = Some r ->
  exists a, values !! i = Some a /\ outcome r = Returned a.
Proof.
  revert values i. induction runs as [| r0 runs IH]; intros [| a values] i H Hi;
    simpl in *; try discriminate.
  injection H as H0 H. destruct i as [| i]; simpl in *.
  - injection Hi as ->. eauto.
  - eauto.
Qed.

Section Handler.
Context {S : Type} (cfg : Config) (rt : JsRuntime) (w : World S).

(** Every promise of the fan-out settles with a value: no symbol can make
    [Promise.all] reject. *)
Lemma resolve_each_settles (symbols : list string) :
  exists quotes, map outcome (resolve_each cfg rt w symbols) = map Returned quotes.
Proof.
  apply imap_settles. intros i symbol. apply fetchQuoteWithCache_settles.
Qed.

Lemma resolve_each_lookup (symbols : list string) (i : nat) (symbol : string) :
  symbols !! i = Some symbol ->
  resolve_each cfg rt w symbols !! i
    = Some (run (service w) (fetchQuoteWithCache cfg rt symbol) (task_state w i)).
Proof.
  intros H. unfold resolve_each. rewrite list_lookup_imap, H. reflexivity.
Qed.

Lemma resolveSymbols_path (event : JsVal) (symbols : list string) :
  resolveSymbols event = inr symbols -> exists ps, path_symbol event = inr ps.
Proof.
  unfold resolveSymbols. destruct (path_symbol event) as [e | ps]; simpl.
  - discriminate.
  - eauto.
Qed.

(** Once the symbols are resolved and not empty, the response is the one
    composed from the values the promises settled with. *)
Lemma handler_composes (event : JsVal) (symbols : list string)
    (quotes : list (option QuoteResult)) :
  resolveSymbols event = inr symbols ->
  symbols <> [] ->
  map outcome (resolve_each cfg rt w symbols) = map Returned quotes ->
  inr (response (handler cfg rt w event)) = compose w event symbols quotes /\
  task_calls (handler cfg rt w event) = map calls (resolve_each cfg rt w symbols).
Proof.
  intros Hres Hne Hq. unfold handler, handler_try. rewrite Hres.
  destruct symbols as [| s0 rest]; [congruence |].
  cbn [length Nat.eqb]. cbv zeta.
  rewrite Hq, promise_all_returned. simpl.
  destruct (resolveSymbols_path _ _ Hres) as [ps Hps].
  unfold compose, responseShape. rewrite Hps. simpl.
  destruct (Js.truthy ps); [destruct (omap id quotes) |]; split; reflexivity.
Qed.

Lemma single_request_symbols (event ps : JsVal) (symbols : list string) :
  path_symbol event = inr ps -> Js.truthy ps = true ->
  resolveSymbols event = inr symbols ->
  exists s, ps = JStr s /\ symbols = [JsString.toUpperCase (JsString.trim s)].
Proof.
  intros Hps Ht. unfold resolveSymbols. rewrite Hps. simpl. rewrite Ht.
  destruct ps; simpl; try discriminate.
  intros H. injection H as <-. eauto.
Qed.

(** C3: when the cache misses for one requested symbol and the provider
    fails for it in any of the five ways, that symbol's promise settles
    with [null]; every promise of the invocation settles with the value of
    its own run, none rejects, and the handler returns the response
    composed from these values. *)
Theorem provider_failure_is_isolated (event : JsVal) (symbols : list string)
    (j : nat) (symbol : string) (kind : ErrorKind) :
  resolveSymbols event = inr symbols ->
  symbols !! j = Some symbol ->
  outcome (run (service w) (getFromCache cfg symbol) (task_state w j)) = Returned None ->
  provider_error cfg
    (fst (answer (service w) (provider_request cfg symbol)
            (final (run (service w) (getFromCache cfg symbol) (task_state w j)))))
    kind ->
  exists quotes : list (option QuoteResult),
    quotes !! j = Some None /\
    (forall i s_i, symbols !! i = Some s_i ->
       exists q, quotes !! i = Some q /\
                 outcome (run (service w) (fetchQuoteWithCache cfg rt s_i) (task_state w i))
                   = Returned q) /\
    map outcome (resolve_each cfg rt w symbols) = map Returned quotes /\
    inr (response (handler cfg rt w event)) = compose w event symbols quotes.
Proof.
  intros Hres Hj Hmiss Herr.
  destruct (resolve_each_settles symbols) as [quotes Hq].
  assert (Hown : forall i s_i, symbols !! i = Some s_i ->
            exists q, quotes !! i = Some q /\
              outcome (run (service w) (fetchQuoteWithCache cfg rt s_i) (task_state w i))
                = Returned q).
  { intros i s_i Hi.
    apply (outcome_lookup _ _ i _ Hq). apply resolve_each_lookup, Hi. }
  exists quotes. repeat split.
  - destruct (Hown j symbol Hj) as (q & Hqj & Hrun).
    rewrite run_fetchQuoteWithCache in Hrun. cbv zeta in Hrun.
    rewrite Hmiss in Hrun.
    rewrite (provider_error_returns_null _ _ _ _ _ kind Herr) in Hrun.
    cbn [outcome] in Hrun. injection Hrun as <-. exact Hqj.
  - exact Hown.
  - exact Hq.
  - apply handler_composes; [exact Hres | | exact Hq].
    intros ->. discriminate.
Qed.

(** C5: when every requested symbol settles with [null], a single-symbol
    request (path parameter) is answered with the 400 response whose body
    is success:false and "Stock symbol '<symbol>' not found.", the symbol
    being the one requested, trimmed and in upper case; any other request
    is answered with the 200 response that carries an empty [quotes] list
    and the counts cached 0 and fresh 0. *)
Theorem nothing_found_by_shape (event ps : JsVal) (symbols : list string) :
  resolveSymbols event = inr symbols ->
  symbols <> [] ->
  path_symbol event = inr ps ->
  (forall i s_i, symbols !! i = Some s_i ->
     outcome (run (service w) (fetchQuoteWithCache cfg rt s_i) (task_state w i))
       = Returned None) ->
  (Js.truthy ps = true ->
     exists s, ps = JStr s /\
       symbols = [JsString.toUpperCase (JsString.trim s)] /\
       response (handler cfg rt w event) =
         {| statusCode := 400;
            headers := [("Content-Type", "application/json");
                        ("Access-Control-Allow-Origin", "*")];
            body := Failure false
                      ("Stock symbol '" ++ JsString.toUpperCase (JsString.trim s)
                         ++ "' not found.")
                      (JsDate.toISOString (reply_clock w)) |}) /\
  (Js.truthy ps = false ->
     response (handler cfg rt w event) =
       successResponse (MultiQuote None [] (JsDate.toISOString (reply_clock w)) 0 0)).
Proof.
  intros Hres Hne Hps Hnone.
  destruct (resolve_each_settles symbols) as [quotes Hq].
  assert (Hvalid : omap id quotes = []).
  { assert (Hall : forall i q, quotes !! i = Some q -> q = None).
    { intros i q Hi.
      assert (Hlen : length quotes = length symbols).
      { apply (f_equal length) in Hq. rewrite !length_map in Hq.
        unfold resolve_each in Hq. rewrite length_imap in Hq. congruence. }
      destruct (lookup_lt_is_Some_2 symbols i) as [s_i Hs].
      { rewrite <- Hlen. apply lookup_lt_Some in Hi. exact Hi. }
      destruct (outcome_lookup _ _ i _ Hq (resolve_each_lookup _ _ _ Hs))
        as (q' & Hq' & Hrun).
      rewrite (Hnone i s_i Hs) in Hrun. congruence. }
    clear Hq. induction quotes as [| q quotes IH]; [reflexivity |].
    rewrite (Hall 0%nat q eq_refl). simpl. apply IH.
    intros i q' Hi. apply (Hall (Datatypes.S i)). exact Hi. }
  destruct (handler_composes event symbols quotes Hres Hne Hq) as [Hresp _].
  unfold compose, responseShape in Hresp. rewrite Hps, Hvalid in Hresp.
  simpl in Hresp.
  split; intros Ht; rewrite Ht in Hresp.
  - destruct (single_request_symbols _ _ _ Hps Ht Hres) as (s & -> & ->).
    exists s. repeat split. simpl in Hresp. injection Hresp as ->. reflexivity.
  - injection Hresp as ->. reflexivity.
Qed.

Lemma length_filter_split {A : Type} (f : A -> bool) (l : list A) :
  (length (List.filter f l) + length (List.filter (fun x => negb (f x)) l))%nat
    = length l.
Proof.
  induction l as [| x l IH]; simpl; [reflexivity |].
  destruct (f x); simpl; lia.
Qed.

Lemma omap_id_sublist {A : Type} (l : list (option A)) :
  sublist (map Some (omap id l)) l.
Proof.
  induction l as [| [a |] l IH]; simpl.
  - constructor.
  - apply sublist_skip, IH.
  - apply sublist_cons, IH.
Qed.

(** C10: in a request without a path symbol, the [quotes] of the 200
    response are the values the promises settled with, in the order of the
    requested symbols, with the [null]s dropped and nothing else dropped
    or added; the counts [cached] and [fresh] add up to the length of that
    list. *)
Theorem multi_quotes_keep_request_order (event ps : JsVal) (symbols : list string)
    (quotes : list (option QuoteResult)) :
  resolveSymbols event = inr symbols ->
  symbols <> [] ->
  path_symbol event = inr ps ->
  Js.truthy ps = false ->
  map outcome (resolve_each cfg rt w symbols) = map Returned quotes ->
  exists (valid : list QuoteResult) (cached fresh : nat),
    response (handler cfg rt w event)
      = successResponse
          (MultiQuote None valid (JsDate.toISOString (reply_clock w)) cached fresh) /\
    valid = omap id quotes /\
    sublist (map Some valid) quotes /\
    (forall q, q ∈ valid <-> Some q ∈ quotes) /\
    cached = length (List.filter (fun q => qr_cached q) valid) /\
    fresh = length (List.filter (fun q => negb (qr_cached q)) valid) /\
    (cached + fresh)%nat = length valid.
Proof.
  intros Hres Hne Hps Ht Hq.
  destruct (handler_composes event symbols quotes Hres Hne Hq) as [Hresp _].
  unfold compose, responseShape in Hresp. rewrite Hps in Hresp. simpl in Hresp.
  rewrite Ht in Hresp. injection Hresp as ->.
  eexists _, _, _. split; [reflexivity |].
  split; [reflexivity |].
  split; [apply omap_id_sublist |].
  split.
  { intros q. rewrite list_elem_of_omap. split.
    - intros (x & Hx & Hid). simpl in Hid. subst x. exact Hx.
    - intros Hq'. exists (Some q). split; [exact Hq' | reflexivity]. }
  split; [reflexivity |].
  split; [reflexivity |].
  apply length_filter_split.
Qed.

End Handler.
End PrimaryHandlerFacts.

Module PrimaryHandlerInstances.
Import Primary PrimaryFacts PrimaryHandlerFacts.

(** [GET /stock?symbols=aapl, zzzz] when the provider has no data for the
    second symbol. *)
Lemma provider_failure_is_isolated_witness :
  exists quotes : list (option QuoteResult),
    quotes !! 1%nat = Some None /\
    (forall i s_i, ["AAPL"; "ZZZZ"] !! i = Some s_i ->
       exists q, quotes !! i = Some q /\
                 outcome (run (service (SampleTasks.world 1))
                            (fetchQuoteWithCache Sample.config Sample.runtime s_i)
                            (task_state (SampleTasks.world 1) i))
                   = Returned q) /\
    map outcome (resolve_each Sample.config Sample.runtime (SampleTasks.world 1)
                   ["AAPL"; "ZZZZ"])
      = map Returned quotes /\
    inr (response (handler Sample.config Sample.runtime (SampleTasks.world 1)
                     SampleTasks.query_event))
      = compose (SampleTasks.world 1) SampleTasks.query_event ["AAPL"; "ZZZZ"] quotes.
Proof.
  apply (provider_failure_is_isolated Sample.config Sample.runtime (SampleTasks.world 1)
           SampleTasks.query_event ["AAPL"; "ZZZZ"] 1%nat "ZZZZ" NoDataError).
  - reflexivity.
  - reflexivity.
  - reflexivity.
  - apply (pe_no_data _ _ Sample.no_data (JObj [])); [reflexivity | reflexivity |].
    right. reflexivity.
Defined.

(** [GET /stock/zzzz] and [GET /stock?symbols=aapl, zzzz] when the provider
    has no data at all. *)
Lemma nothing_found_by_shape_witness :
  response (handler Sample.config Sample.runtime (SampleTasks.world 0)
              SampleTasks.path_event)
    = errorResponse "Stock symbol 'ZZZZ' not found." Sample.noon /\
  response (handler Sample.config Sample.runtime
              (Sample.world (Sample.fixed (inr None) (inr Sample.no_data) (inr tt)
                               Sample.noon))
              SampleTasks.query_event)
    = successResponse (MultiQuote None [] "2024-01-15T10:30:00.000Z" 0 0).
Proof.
  split.
  - destruct (nothing_found_by_shape Sample.config Sample.runtime (SampleTasks.world 0)
                SampleTasks.path_event (JStr "zzzz") ["ZZZZ"]) as [Hsingle _].
    + reflexivity.
    + discriminate.
    + reflexivity.
    + intros [| [| i]] s_i H; simpl in H; try discriminate.
      injection H as <-. reflexivity.
    + destruct (Hsingle eq_refl) as (s & Hs & _ & Hresp).
      injection Hs as <-. exact Hresp.
  - destruct (nothing_found_by_shape Sample.config Sample.runtime
                (Sample.world (Sample.fixed (inr None) (inr Sample.no_data) (inr tt)
                                 Sample.noon))
                SampleTasks.query_event JUndefined ["AAPL"; "ZZZZ"]) as [_ Hmulti].
    + reflexivity.
    + discriminate.
    + reflexivity.
    + intros [| [| [| i]]] s_i H; simpl in H; try discriminate;
        injection H as <-; reflexivity.
    + exact (Hmulti eq_refl).
Defined.

(** [GET /stock?symbols=aapl, zzzz]: one quote survives. *)
Lemma multi_quotes_keep_request_order_witness :
  exists (valid : list QuoteResult) (cached fresh : nat),
    response (handler Sample.config Sample.runtime (SampleTasks.world 1)
                SampleTasks.query_event)
      = successResponse
          (MultiQuote None valid (JsDate.toISOString Sample.noon) cached fresh) /\
    valid = omap id [Some {| qr_quote := Sample.quote "AAPL"; qr_cached := false |}; None] /\
    sublist (map Some valid)
      [Some {| qr_quote := Sample.quote "AAPL"; qr_cached := false |}; None] /\
    (forall q, q ∈ valid <->
       Some q ∈ [Some {| qr_quote := Sample.quote "AAPL"; qr_cached := false |}; None]) /\
    cached = length (List.filter (fun q => qr_cached q) valid) /\
    fresh = length (List.filter (fun q => negb (qr_cached q)) valid) /\
    (cached + fresh)%nat = length valid.
Proof.
  apply (multi_quotes_keep_request_order Sample.config Sample.runtime
           (SampleTasks.world 1) SampleTasks.query_event JUndefined ["AAPL"; "ZZZZ"]
           [Some {| qr_quote := Sample.quote "AAPL"; qr_cached := false |}; None]).
  - reflexivity.
  - discriminate.
  - reflexivity.
  - reflexivity.
  - reflexivity.
Defined.

End PrimaryHandlerInstances.

(** ** The symbol resolver of the primary handler *)

Module PrimaryResolverFacts.
Import Primary PrimaryFacts PrimaryHandlerFacts JsStringFacts.

Lemma map_trim_upper_strings (l : list string) :
  JsCall.map_trim_upper (map JStr l) = inr (map JsString.trim_upper l).
Proof.
  induction l as [| s l IH]; simpl; [reflexivity |].
  rewrite IH. reflexivity.
Qed.

Lemma map_trim_upper_normalized (elems : list JsVal) (symbols : list string) :
  JsCall.map_trim_upper elems = inr symbols -> Forall JsString.normalized symbols.
Proof.
  revert symbols. induction elems as [| v elems IH]; intros symbols; simpl.
  - intros H. injection H as <-. constructor.
  - destruct v; simpl; try discriminate.
    destruct (JsCall.map_trim_upper elems) as [e | ss]; simpl; [discriminate |].
    intros H. injection H as <-. constructor.
    + apply normalized_trim_upper.
    + apply IH. reflexivity.
Qed.

Lemma map_trim_upper_nil (elems : list JsVal) :
  JsCall.map_trim_upper elems = inr [] -> elems = [].
Proof.
  destruct elems as [| v elems]; simpl; [reflexivity |].
  destruct (JsCall.trim "s" v); simpl; [discriminate |].
  destruct (JsCall.map_trim_upper elems); simpl; discriminate.
Qed.

Lemma DEFAULT_SYMBOLS_normalized : Forall JsString.normalized DEFAULT_SYMBOLS.
Proof. repeat constructor. Qed.

(** C6: the symbols come from the first of four sources that is present:
    the path parameter (one symbol, shape SINGLE), else the comma-separated
    query parameter (split at the commas, shape MULTI), else the list in
    the event's [symbols] field (shape MULTI), else the default list (shape
    MULTI).  Whatever the source, every resolved symbol is trimmed and in
    upper case. *)
Theorem resolution_order (event : JsVal) :
  (forall s,
     path_symbol event = inr (JStr s) -> s <> "" ->
     resolveSymbols event = inr [JsString.trim_upper s] /\
     responseShape event = inr SINGLE) /\
  (forall ps s,
     path_symbol event = inr ps -> Js.truthy ps = false ->
     query_symbols event = inr (JStr s) -> s <> "" ->
     resolveSymbols event = inr (map JsString.trim_upper (JsString.split "," s)) /\
     responseShape event = inr MULTI) /\
  (forall ps qs l,
     path_symbol event = inr ps -> Js.truthy ps = false ->
     query_symbols event = inr qs -> Js.truthy qs = false ->
     Js.get_prop event "symbols" = inr (JArr (map JStr l)) ->
     resolveSymbols event = inr (map JsString.trim_upper l) /\
     responseShape event = inr MULTI) /\
  (forall ps qs es,
     path_symbol event = inr ps -> Js.truthy ps = false ->
     query_symbols event = inr qs -> Js.truthy qs = false ->
     Js.get_prop event "symbols" = inr es -> is_array es = false ->
     resolveSymbols event = inr DEFAULT_SYMBOLS /\
     responseShape event = inr MULTI) /\
  (forall symbols,
     resolveSymbols event = inr symbols -> Forall JsString.normalized symbols).
Proof.
  unfold resolveSymbols, responseShape.
  split; [| split; [| split; [| split]]].
  - intros s Hps Hs. rewrite Hps. simpl.
    destruct s; [congruence | split; reflexivity].
  - intros ps s Hps Tp Hqs Hs. rewrite Hps. simpl. rewrite Tp, Hqs. simpl.
    destruct s; [congruence | split; reflexivity].
  - intros ps qs l Hps Tp Hqs Tq Hes. rewrite Hps. simpl.
    rewrite Tp, Hqs. simpl. rewrite Tq, Hes. simpl.
    split; [apply map_trim_upper_strings | reflexivity].
  - intros ps qs es Hps Tp Hqs Tq Hes Harr. rewrite Hps. simpl.
    rewrite Tp, Hqs. simpl. rewrite Tq, Hes. simpl.
    rewrite Harr, andb_false_r. split; reflexivity.
  - intros symbols.
    destruct (path_symbol event) as [e | ps]; simpl; [discriminate |].
    destruct (Js.truthy ps).
    { destruct ps; simpl; try discriminate.
      intros H. injection H as <-. repeat constructor. apply normalized_trim_upper. }
    destruct (query_symbols event) as [e | qs]; simpl; [discriminate |].
    destruct (Js.truthy qs).
    { destruct qs; simpl; try discriminate.
      intros H. injection H as <-.
      apply Forall_forall. intros x Hx. apply list_elem_of_In, in_map_iff in Hx.
      destruct Hx as (y & <- & _). apply normalized_trim_upper. }
    destruct (Js.get_prop event "symbols") as [e | es]; simpl; [discriminate |].
    destruct (Js.truthy es && is_array es).
    { apply map_trim_upper_normalized. }
    intros H. injection H as <-. apply DEFAULT_SYMBOLS_normalized.
Qed.

(** The messages of the exceptions that the resolver can throw do not
    start with the letter N. *)
Lemma get_prop_message (v : JsVal) (name : string) (e : Exn) :
  Js.get_prop v name = inl e -> JsCall.not_N (message e).
Proof.
  destruct v; simpl; try discriminate; intros H; injection H as <-;
    eexists _, _; (split; [reflexivity | discriminate]).
Qed.

Lemma trim_message (expr : string) (v : JsVal) (e : Exn) :
  JsCall.trim expr v = inl e -> JsCall.not_N (message (mkExn "TypeError" (expr ++ "."))) ->
  JsCall.not_N (message e).
Proof.
  intros H (c & rest & Hm & Hc). simpl in Hm.
  destruct v; simpl in H; try discriminate; injection H as <-; simpl;
    try (eexists _, _; (split; [reflexivity | discriminate])).
  all: destruct expr as [| c' expr']; simpl in *;
    [injection Hm as <- _; eexists _, _; split; [reflexivity | discriminate]
    | injection Hm as <- _; eexists _, _; split; [reflexivity | exact Hc]].
Qed.

Lemma map_trim_upper_message (elems : list JsVal) (e : Exn) :
  JsCall.map_trim_upper elems = inl e -> JsCall.not_N (message e).
Proof.
  induction elems as [| v elems IH]; simpl; [discriminate |].
  destruct (JsCall.trim "s" v) as [e' | s] eqn:E; simpl.
  - intros H. injection H as <-. eapply trim_message; [exact E |].
    eexists _, _; split; [reflexivity | discriminate].
  - destruct (JsCall.map_trim_upper elems) as [e' | ss]; simpl; [| discriminate].
    intros H. injection H as <-. apply IH. reflexivity.
Qed.

Lemma path_symbol_message (event : JsVal) (e : Exn) :
  path_symbol event = inl e -> JsCall.not_N (message e).
Proof.
  unfold path_symbol.
  destruct (Js.get_prop event "pathParameters") as [e' | pp] eqn:E; simpl.
  - intros H. injection H as <-. eapply get_prop_message, E.
  - destruct (Js.truthy pp); [| discriminate]. apply get_prop_message.
Qed.

Lemma query_symbols_message (event : JsVal) (e : Exn) :
  query_symbols event = inl e -> JsCall.not_N (message e).
Proof.
  unfold query_symbols.
  destruct (Js.get_prop event "queryStringParameters") as [e' | pp] eqn:E; simpl.
  - intros H. injection H as <-. eapply get_prop_message, E.
  - destruct (Js.truthy pp); [| discriminate]. apply get_prop_message.
Qed.

Lemma resolveSymbols_message (event : JsVal) (e : Exn) :
  resolveSymbols event = inl e -> JsCall.not_N (message e).
Proof.
  unfold resolveSymbols.
  destruct (path_symbol event) as [e' | ps] eqn:Eps; simpl.
  { intros H. injection H as <-. eapply path_symbol_message, Eps. }
  destruct (Js.truthy ps).
  { destruct (JsCall.trim _ ps) as [e' | s] eqn:E; simpl; [| discriminate].
    intros H. injection H as <-. eapply trim_message; [exact E |].
    eexists _, _; split; [reflexivity | discriminate]. }
  destruct (query_symbols event) as [e' | qs] eqn:Eqs; simpl.
  { intros H. injection H as <-. eapply query_symbols_message, Eqs. }
  destruct (Js.truthy qs).
  { destruct qs; simpl; try discriminate; intros H; injection H as <-;
      eexists _, _; (split; [reflexivity | discriminate]). }
  destruct (Js.get_prop event "symbols") as [e' | es] eqn:Ees; simpl.
  { intros H. injection H as <-. eapply get_prop_message, Ees. }
  destruct (Js.truthy es && is_array es); [| discriminate].
  apply map_trim_upper_message.
Qed.

Lemma not_N_message_or_unknown (e : Exn) :
  JsCall.not_N (message e) -> JsCall.message_or_unknown e <> "No symbols provided.".
Proof.
  intros (c & rest & Hm & Hc). unfold JsCall.message_or_unknown.
  rewrite Hm. simpl. intros H. injection H as H _. congruence.
Qed.

(** The resolved list is empty only for an event whose [symbols] field is
    the empty array, with no path symbol and no query parameter before
    it. *)
Lemma resolveSymbols_nil (event : JsVal) :
  resolveSymbols event = inr [] ->
  exists ps qs,
    path_symbol event = inr ps /\ Js.truthy ps = false /\
    query_symbols event = inr qs /\ Js.truthy qs = false /\
    Js.get_prop event "symbols" = inr (JArr []).
Proof.
  unfold resolveSymbols.
  destruct (path_symbol event) as [e | ps]; simpl; [discriminate |].
  destruct (Js.truthy ps) eqn:Tp.
  { destruct (JsCall.trim _ ps); simpl; discriminate. }
  destruct (query_symbols event) as [e | qs]; simpl; [discriminate |].
  destruct (Js.truthy qs) eqn:Tq.
  { destruct qs; simpl; try discriminate.
    intros H. injection H as H. apply map_eq_nil in H.
    exfalso. exact (split_not_nil _ _ H). }
  destruct (Js.get_prop event "symbols") as [e | es]; simpl; [discriminate |].
  destruct (Js.truthy es && is_array es) eqn:Ta; [| discriminate].
  intros H. apply map_trim_upper_nil in H.
  destruct es; simpl in *; try discriminate;
    try (rewrite andb_false_r in Ta; discriminate).
  subst. exists ps, qs. repeat split; assumption || reflexivity.
Qed.

Section NoSymbols.
Context {S : Type} (cfg : Config) (rt : JsRuntime) (w : World S).

(** C7: the handler answers with the error "No symbols provided." exactly
    when the resolved list of symbols is empty, and the resolved list is
    empty only when the event carries an explicit empty list in its
    [symbols] field (and neither a path symbol nor a query parameter). *)
Theorem no_symbols_error_iff_empty (event : JsVal) :
  (response (handler cfg rt w event)
     = errorResponse "No symbols provided." (reply_clock w)
   <-> resolveSymbols event = inr []) /\
  (resolveSymbols event = inr [] ->
   exists ps qs,
     path_symbol event = inr ps /\ Js.truthy ps = false /\
     query_symbols event = inr qs /\ Js.truthy qs = false /\
     Js.get_prop event "symbols" = inr (JArr [])).
Proof.
  split; [| apply resolveSymbols_nil].
  split.
  - destruct (resolveSymbols event) as [e | [| s0 rest]] eqn:Hres.
    + intros H. exfalso. unfold handler, handler_try in H. rewrite Hres in H.
      simpl in H. unfold errorResponse in H. injection H as H.
      exact (not_N_message_or_unknown e (resolveSymbols_message _ _ Hres) H).
    + reflexivity.
    + intros H. exfalso.
      destruct (resolve_each_settles cfg rt w (s0 :: rest)) as [quotes Hq].
      destruct (handler_composes cfg rt w event (s0 :: rest) quotes Hres) as [Hc _];
        [discriminate | exact Hq |].
      rewrite H in Hc. unfold compose in Hc.
      destruct (responseShape event) as [e | [|]]; simpl in Hc; [discriminate | |].
      * destruct (omap id quotes); discriminate.
      * discriminate.
  - intros Hres. unfold handler, handler_try. rewrite Hres. reflexivity.
Qed.

End NoSymbols.

(** One event for each of the four sources. *)
Lemma resolution_order_witness :
  (resolveSymbols SampleTasks.path_event = inr ["ZZZZ"] /\
   responseShape SampleTasks.path_event = inr SINGLE) /\
  (resolveSymbols SampleTasks.query_event = inr ["AAPL"; "ZZZZ"] /\
   responseShape SampleTasks.query_event = inr MULTI) /\
  (resolveSymbols (JObj [("symbols", JArr [JStr " msft"; JStr "Nvda "])])
     = inr ["MSFT"; "NVDA"] /\
   responseShape (JObj [("symbols", JArr [JStr " msft"; JStr "Nvda "])]) = inr MULTI) /\
  (resolveSymbols (JObj [("symbols", JStr "msft")]) = inr DEFAULT_SYMBOLS /\
   responseShape (JObj [("symbols", JStr "msft")]) = inr MULTI).
Proof.
  split; [| split; [| split]].
  - apply (proj1 (resolution_order SampleTasks.path_event) "zzzz");
      [reflexivity | discriminate].
  - apply (proj1 (proj2 (resolution_order SampleTasks.query_event))
             JUndefined "aapl, zzzz");
      [reflexivity | reflexivity | reflexivity | discriminate].
  - apply (proj1 (proj2 (proj2
             (resolution_order (JObj [("symbols", JArr [JStr " msft"; JStr "Nvda "])]))))
             JUndefined JUndefined [" msft"; "Nvda "]); reflexivity.
  - apply (proj1 (proj2 (proj2 (proj2
             (resolution_order (JObj [("symbols", JStr "msft")])))))
             JUndefined JUndefined (JStr "msft")); reflexivity.
Defined.

(** The scheduled event [{ "symbols": [] }]. *)
Lemma no_symbols_error_iff_empty_witness :
  response (handler Sample.config Sample.runtime Sample.open_world
              (JObj [("symbols", JArr [])]))
    = errorResponse "No symbols provided." Sample.noon /\
  Js.get_prop (JObj [("symbols", JArr [])]) "symbols" = inr (JArr []).
Proof.
  split.
  - apply (proj2 (proj1 (no_symbols_error_iff_empty Sample.config Sample.runtime
                           Sample.open_world (JObj [("symbols", JArr [])])))).
    reflexivity.
  - reflexivity.
Defined.

End PrimaryResolverFacts.

(** ** The two copies compared *)

Module CompareFacts.
Import Compare PrimaryFacts PrimaryHandlerFacts.

Section Simulation.
Context {S1 S2 : Type} (srv1 : Service S1) (srv2 : Service S2)
        (R : S1 -> S2 -> Prop) (cfg1 cfg2 : Config) (rt : JsRuntime).
Context (Hcorr : corresponds (CACHE_TABLE cfg1) (CACHE_TABLE cfg2) srv1 srv2 R)
        (Hkey : API_KEY cfg1 = API_KEY cfg2).

Lemma clock_agrees (s1 : S1) (s2 : S2) :
  R s1 s2 ->
  fst (answer srv1 DateNow s1) = fst (answer srv2 DateNow s2) /\
  R (snd (answer srv1 DateNow s1)) (snd (answer srv2 DateNow s2)).
Proof.
  intros HR. destruct (corr_clock _ _ _ _ _ Hcorr _ _ HR) as (Heq & H1 & _).
  split; [exact Heq |].
  destruct (corr_clock _ _ _ _ _ Hcorr _ _ H1) as (_ & _ & H2). exact H2.
Qed.

Lemma getFromCache_agree (symbol : string) (s1 : S1) (s2 : S2) :
  R s1 s2 ->
  outcome (run srv1 (Primary.getFromCache cfg1 symbol) s1)
    = outcome (run srv2 (Variant.getFromCache cfg2 symbol) s2) /\
  R (final (run srv1 (Primary.getFromCache cfg1 symbol) s1))
    (final (run srv2 (Variant.getFromCache cfg2 symbol) s2)).
Proof.
  intros HR. rewrite run_getFromCache. cbv zeta.
  unfold Variant.getFromCache. simpl.
  destruct (corr_clock _ _ _ _ _ Hcorr _ _ HR) as (Hms0 & _ & HR0).
  destruct (corr_clock _ _ _ _ _ Hcorr _ _ HR0) as (Hms0' & _ & _).
  pose proof (corr_get _ _ _ _ _ Hcorr _ _ symbol HR0) as Hget.
  cbv zeta in Hget. rewrite <- Hms0', Hms0 in Hget. clear Hms0 Hms0'.
  destruct (answer srv2 DateNow s2) as [ms0 s2a]. simpl in *.
  destruct Hget as (Hsame & HR1).
  destruct (answer srv1 (DynamoGet (CACHE_TABLE cfg1) (Primary.cache_key symbol)) s1)
    as [reply1 s1b].
  destruct (answer srv2 (DynamoGet (CACHE_TABLE cfg2)
                           (Variant.cache_key symbol (Variant.today ms0))) s2a)
    as [reply2 s2b]. simpl in *.
  destruct reply1 as [e1 | [i1 |]], reply2 as [e2 | [i2 |]]; simpl in *;
    try contradiction; try (split; [reflexivity | exact HR1]).
  destruct Hsame as [Hdata Httl].
  destruct (clock_agrees s1b s2b HR1) as (Hms & HR2).
  destruct (answer srv1 DateNow s1b) as [ms1 s1c].
  destruct (answer srv2 DateNow s2b) as [ms2 s2c]. simpl in *.
  subst ms2. rewrite Hdata, Httl.
  destruct (JsDate.epoch_seconds ms1 <? item_ttl i2)%Z; split; try reflexivity; exact HR2.
Qed.

Lemma parse_quote_agree (symbol : string) (global : JsVal) :
  match Primary.parse_quote rt symbol global, Variant.parse_quote rt symbol global with
  | inr q1, inr q2 => q1 = q2
  | inl _, inl _ => True
  | _, _ => False
  end.
Proof.
  unfold Primary.parse_quote, Variant.parse_quote.
  crack_conversions; exact I || reflexivity.
Qed.

Lemma fetchFromAlphaVantage_agree (symbol : string) (s1 : S1) (s2 : S2) :
  R s1 s2 ->
  outcome (run srv1 (Primary.fetchFromAlphaVantage cfg1 rt symbol) s1)
    = outcome (run srv2 (Variant.fetchFromAlphaVantage cfg2 rt symbol) s2).
Proof.
  intros HR.
  unfold Primary.fetchFromAlphaVantage, Variant.fetchFromAlphaVantage.
  unfold Primary.api_key_missing, Variant.api_key_missing.
  unfold Primary.provider_request, Variant.provider_request.
  rewrite <- Hkey.
  destruct (match API_KEY cfg1 with Some k => JsString.is_empty k | None => true end);
    [reflexivity |].
  simpl.
  match goal with
  | |- context [answer srv1 (AxiosGet ?u ?p ?t) s1] =>
      destruct (corr_http _ _ _ _ _ Hcorr _ _ u p t HR) as (Hreply & _);
      destruct (answer srv1 (AxiosGet u p t) s1) as [reply s1a];
      destruct (answer srv2 (AxiosGet u p t) s2) as [reply' s2a]
  end.
  simpl in *. subst reply'.
  destruct reply as [e | data]; simpl; [reflexivity |].
  destruct (Js.get_prop data "Error Message") as [e | em]; simpl; [reflexivity |].
  destruct (Js.truthy em); simpl; [destruct (toText rt em); reflexivity |].
  destruct (Js.get_prop data "Note") as [e | note]; simpl; [reflexivity |].
  destruct (Js.truthy note); simpl; [reflexivity |].
  destruct (Js.get_prop data "Global Quote") as [e | global]; simpl; [reflexivity |].
  destruct (negb (Js.truthy global) || (Js.keys_length global =? 0)%nat);
    simpl; [reflexivity |].
  pose proof (parse_quote_agree symbol global) as Hp.
  destruct (Primary.parse_quote rt symbol global),
           (Variant.parse_quote rt symbol global); simpl; try contradiction.
  - reflexivity.
  - subst. reflexivity.
Qed.

Lemma variant_saveToCache_returns (symbol : string) (data : Quote) (s2 : S2) :
  outcome (run srv2 (Variant.saveToCache cfg2 symbol data) s2) = Returned tt.
Proof.
  unfold Variant.saveToCache. simpl.
  destruct (answer srv2 DateNow s2) as [ms sa]; simpl.
  destruct (answer srv2 DateNow sa) as [ms0 sb]; simpl.
  destruct (answer srv2 DateNow sb) as [ms' sc]; simpl.
  destruct (answer srv2 _ sc) as [[e | []] sd]; reflexivity.
Qed.

Lemma variant_fetchQuoteWithCache_outcome (symbol : string) (s2 : S2) :
  outcome (run srv2 (Variant.fetchQuoteWithCache cfg2 rt symbol) s2) =
    let r1 := run srv2 (Variant.getFromCache cfg2 symbol) s2 in
    match outcome r1 with
    | Returned (Some q) => Returned (Some {| qr_quote := q; qr_cached := true |})
    | Returned None =>
        match outcome (run srv2 (Variant.fetchFromAlphaVantage cfg2 rt symbol) (final r1)) with
        | Returned (Some q) => Returned (Some {| qr_quote := q; qr_cached := false |})
        | _ => Returned None
        end
    | Thrown e => Returned None
    end.
Proof.
  unfold Variant.fetchQuoteWithCache.
  rewrite run_try_catch, run_bind. cbv zeta.
  destruct (outcome (run srv2 (Variant.getFromCache cfg2 symbol) s2)) as [[q |] | e];
    cbn [outcome calls final run mret Prog_ret]; try reflexivity.
  rewrite run_bind. cbv zeta.
  destruct (outcome (run srv2 (Variant.fetchFromAlphaVantage cfg2 rt symbol) _))
    as [[q |] | e]; cbn [outcome calls final run mret Prog_ret]; try reflexivity.
  rewrite run_bind. cbv zeta.
  rewrite variant_saveToCache_returns. reflexivity.
Qed.

(** For one symbol, the two copies settle with the same value. *)
Lemma fetchQuoteWithCache_agree (symbol : string) (s1 : S1) (s2 : S2) :
  R s1 s2 ->
  outcome (run srv1 (Primary.fetchQuoteWithCache cfg1 rt symbol) s1)
    = outcome (run srv2 (Variant.fetchQuoteWithCache cfg2 rt symbol) s2).
Proof.
  intros HR.
  rewrite run_fetchQuoteWithCache, variant_fetchQuoteWithCache_outcome. cbv zeta.
  destruct (getFromCache_agree symbol s1 s2 HR) as (Hget & HR1).
  rewrite <- Hget.
  destruct (outcome (run srv1 (Primary.getFromCache cfg1 symbol) s1)) as [[q |] | e];
    try reflexivity.
  rewrite <- (fetchFromAlphaVantage_agree symbol _ _ HR1).
  destruct (outcome (run srv1 (Primary.fetchFromAlphaVantage cfg1 rt symbol) _))
    as [[q |] | e]; reflexivity.
Qed.

End Simulation.

Lemma resolveSymbols_agree (event : JsVal) :
  uses_default_list event = false ->
  Variant.resolveSymbols event = Primary.resolveSymbols event.
Proof.
  unfold uses_default_list, Variant.resolveSymbols, Primary.resolveSymbols.
  change Variant.path_symbol with Primary.path_symbol.
  change Variant.query_symbols with Primary.query_symbols.
  change Variant.is_array with Primary.is_array.
  change Variant.elements with Primary.elements.
  destruct (Primary.path_symbol event) as [e | ps]; simpl; [reflexivity |].
  destruct (Js.truthy ps); simpl; [reflexivity |].
  destruct (Primary.query_symbols event) as [e | qs]; simpl; [reflexivity |].
  destruct (Js.truthy qs); simpl; [reflexivity |].
  destruct (Js.get_prop event "symbols") as [e | es]; simpl; [reflexivity |].
  destruct (Js.truthy es && Primary.is_array es); simpl; [reflexivity | discriminate].
Qed.

Lemma resolveSymbols_default (event : JsVal) :
  uses_default_list event = true ->
  Primary.resolveSymbols event = inr Primary.DEFAULT_SYMBOLS /\
  Variant.resolveSymbols event = inr Variant.DEFAULT_SYMBOLS.
Proof.
  unfold uses_default_list, Variant.resolveSymbols, Primary.resolveSymbols.
  change Variant.path_symbol with Primary.path_symbol.
  change Variant.query_symbols with Primary.query_symbols.
  change Variant.is_array with Primary.is_array.
  destruct (Primary.path_symbol event) as [e | ps]; simpl; [discriminate |].
  destruct (Js.truthy ps); simpl; [discriminate |].
  destruct (Primary.query_symbols event) as [e | qs]; simpl; [discriminate |].
  destruct (Js.truthy qs); simpl; [discriminate |].
  destruct (Js.get_prop event "symbols") as [e | es]; simpl; [discriminate |].
  destruct (Js.truthy es && Primary.is_array es); simpl; [discriminate |].
  split; reflexivity.
Qed.

Lemma imap_outcomes_agree {SA SB A B : Type} (f : nat -> A -> Run SA B)
    (g : nat -> A -> Run SB B) (l : list A) :
  (forall i x, outcome (f i x) = outcome (g i x)) ->
  map outcome (imap f l) = map outcome (imap g l).
Proof.
  revert f g. induction l as [| x l IH]; intros f g H; simpl; [reflexivity |].
  rewrite H. f_equal. apply IH. intros i y. apply H.
Qed.

Section Handlers.
Context {S1 S2 : Type} (w1 : World S1) (w2 : World S2) (R : S1 -> S2 -> Prop).
Context (cfg1 cfg2 : Config) (rt : JsRuntime).

(** C9, as amended: on every event that does not fall back to the default
    symbol list, the two handlers return the same response up to the
    [success] flag of the multi-quote payload, whenever they share the API
    key and see corresponding worlds: a clock that gives both the same
    time and stands still while a symbol is processed, the same provider
    answers, and the same entry under the first copy's key (symbol,
    dataType = "quote") in its table and under the second copy's key for
    the current UTC day (symbol, date = today) in its table; on an event
    that falls back to the default list the first resolves ten symbols and
    the second six. *)
Theorem handlers_agree_on_supplied_symbols (event : JsVal) :
  API_KEY cfg1 = API_KEY cfg2 ->
  corresponds (CACHE_TABLE cfg1) (CACHE_TABLE cfg2) (service w1) (service w2) R ->
  (forall i, R (task_state w1 i) (task_state w2 i)) ->
  reply_clock w1 = reply_clock w2 ->
  (uses_default_list event = false ->
     erase_success (response (Primary.handler cfg1 rt w1 event))
       = erase_success (response (Variant.handler cfg2 rt w2 event))) /\
  (uses_default_list event = true ->
     Primary.resolveSymbols event = inr Primary.DEFAULT_SYMBOLS /\
     Variant.resolveSymbols event = inr Variant.DEFAULT_SYMBOLS /\
     length Primary.DEFAULT_SYMBOLS = 10%nat /\
     length Variant.DEFAULT_SYMBOLS = 6%nat).
Proof.
  intros Hkey Hcorr Htasks Hclock. split.
  - intros Hnd.
    unfold Primary.handler, Variant.handler, Primary.handler_try, Variant.handler_try.
    rewrite (resolveSymbols_agree event Hnd), <- Hclock.
    destruct (Primary.resolveSymbols event) as [e | symbols]; [reflexivity |].
    destruct (length symbols =? 0)%nat; [reflexivity |].
    cbv zeta.
    assert (Hout : map outcome (Variant.resolve_each cfg2 rt w2 symbols)
                   = map outcome (Primary.resolve_each cfg1 rt w1 symbols)).
    { unfold Variant.resolve_each, Primary.resolve_each.
      apply imap_outcomes_agree. intros i symbol. symmetry.
      apply (fetchQuoteWithCache_agree _ _ R cfg1 cfg2 rt Hcorr Hkey). apply Htasks. }
    rewrite Hout.
    destruct (promise_all (map outcome (Primary.resolve_each cfg1 rt w1 symbols)))
      as [e | quotes]; simpl; [reflexivity |].
    unfold Primary.compose, Variant.compose, Primary.responseShape, Variant.responseShape.
    change Variant.path_symbol with Primary.path_symbol.
    change Variant.first_symbol with Primary.first_symbol.
    rewrite <- Hclock.
    destruct (Primary.path_symbol event) as [e | ps]; simpl; [reflexivity |].
    destruct (Js.truthy ps); simpl; [| reflexivity].
    destruct (omap id quotes); reflexivity.
  - intros Hd. destruct (resolveSymbols_default event Hd) as [H1 H2].
    repeat split; assumption || reflexivity.
Qed.

End Handlers.

(** Two keyed tables that hold the same entries for today, behind the same
    provider, are corresponding worlds for the two copies. *)
Lemma tables_correspond (provider : list (string * string) -> Exn + JsVal)
    (table1 table2 : string) :
  corresponds table1 table2
    (Backend.service "dataType" provider) (Backend.service "date" provider)
    (TwoTables.same_entries_today table1 table2).
Proof.
  constructor.
  - intros s1 s2 [Hclock Hrows]. cbn. repeat split; assumption.
  - intros s1 s2 symbol [Hclock Hrows]. cbn -[Variant.today lookup].
    split; [| split; assumption].
    rewrite <- Hclock. exact (Hrows symbol).
  - intros s1 s2 url params timeout HR. cbn. split; [reflexivity | exact HR].
Qed.

End CompareFacts.

Module CompareInstances.
Import Compare CompareFacts.

Lemma sample_tables_agree :
  TwoTables.same_entries_today "stock-price-cache" "stock-prices-cache"
    TwoTables.primary_table TwoTables.variant_table.
Proof.
  split; [reflexivity |]. intros symbol.
  change (Variant.today (Table.clock TwoTables.primary_table)) with "2024-01-15".
  unfold TwoTables.primary_table, TwoTables.variant_table. cbn [Table.rows].
  destruct (decide (symbol = "AAPL")) as [-> | Hne].
  - rewrite !lookup_singleton_eq. split; reflexivity.
  - rewrite !lookup_singleton_ne by congruence. exact I.
Qed.

(** C9 fails as stated: the two copies, each with the defaults of its own
    file, run against corresponding worlds (each behind its own keyed
    table, the tables holding the same fresh AAPL entry for today, and the
    same provider), and the event without any symbol information makes the
    first copy return ten quotes and the second six, so the responses
    differ in more than the [success] flag. *)
Lemma copies_differ_on_default_list :
  corresponds (CACHE_TABLE TwoTables.primary_config)
    (CACHE_TABLE TwoTables.variant_config)
    (service TwoTables.primary_world) (service TwoTables.variant_world)
    (TwoTables.same_entries_today "stock-price-cache" "stock-prices-cache") /\
  TwoTables.same_entries_today "stock-price-cache" "stock-prices-cache"
    TwoTables.primary_table TwoTables.variant_table /\
  erase_success
    (response (Primary.handler TwoTables.primary_config Sample.runtime TwoTables.primary_world
                 (JObj [])))
    <> erase_success
         (response (Variant.handler TwoTables.variant_config Sample.runtime TwoTables.variant_world
                      (JObj []))) /\
  quotes_in
    (response (Primary.handler TwoTables.primary_config Sample.runtime TwoTables.primary_world
                 (JObj [])))
    = 10%nat /\
  quotes_in
    (response (Variant.handler TwoTables.variant_config Sample.runtime TwoTables.variant_world
                 (JObj [])))
    = 6%nat.
Proof.
  split; [apply tables_correspond |].
  split; [exact sample_tables_agree |].
  split; [| split; vm_compute; reflexivity].
  intros H. apply (f_equal quotes_in) in H. vm_compute in H. discriminate.
Qed.

(** [GET /stock?symbols=aapl, zzzz] answered by both copies, each with the
    defaults of its own file and behind its own table: AAPL comes from the
    cache and ZZZZ from the provider. *)
Lemma handlers_agree_on_supplied_symbols_witness :
  erase_success
    (response (Primary.handler TwoTables.primary_config Sample.runtime TwoTables.primary_world
                 SampleTasks.query_event))
    = erase_success
        (response (Variant.handler TwoTables.variant_config Sample.runtime TwoTables.variant_world
                     SampleTasks.query_event)) /\
  body (response (Primary.handler TwoTables.primary_config Sample.runtime TwoTables.primary_world
                    SampleTasks.query_event))
    = MultiQuote None
        [{| qr_quote := Sample.quote "AAPL"; qr_cached := true |};
         {| qr_quote := Sample.quote "ZZZZ"; qr_cached := false |}]
        "2024-01-15T10:30:00.000Z" 1 1.
Proof.
  split.
  - apply (handlers_agree_on_supplied_symbols TwoTables.primary_world
             TwoTables.variant_world
             (TwoTables.same_entries_today "stock-price-cache" "stock-prices-cache")
             TwoTables.primary_config TwoTables.variant_config Sample.runtime
             SampleTasks.query_event).
    + reflexivity.
    + apply tables_correspond.
    + intros i. exact sample_tables_agree.
    + reflexivity.
    + reflexivity.
  - vm_compute. reflexivity.
Defined.

End CompareInstances.

Module KeyFacts.

(** The second copy keys an entry by the UTC day of the write: an entry
    written at 23:59:30 with a TTL of 300 seconds is not found forty
    seconds later, on the next day, although it has not expired, while the
    first copy finds its entry. *)
Lemma variant_entry_lost_at_midnight :
  outcome
    (run (Table.service "date") (Variant.getFromCache (Variant.default_config None) "AAPL")
       (Table.at_time
          (final (run (Table.service "date")
                    (Variant.saveToCache (Variant.default_config None) "AAPL"
                       (Sample.quote "AAPL"))
                    {| Table.rows := ∅; Table.clock := 1705363170000 |}))
          1705363210000))
    = Returned None /\
  outcome
    (run (Table.service "dataType")
       (Primary.getFromCache (Variant.default_config None) "AAPL")
       (Table.at_time
          (final (run (Table.service "dataType")
                    (Primary.saveToCache (Variant.default_config None) "AAPL"
                       (Sample.quote "AAPL"))
                    {| Table.rows := ∅; Table.clock := 1705363170000 |}))
          1705363210000))
    = Returned (Some (Sample.quote "AAPL")).
Proof. split; vm_compute; reflexivity. Qed.

End KeyFacts.

(** ** Scenarios *)

Module Scenarios.
Import Primary.

(** [{symbols: "AAPL,MSFT"}] as a query, empty cache, the provider answers
    for both: two quotes, none from the cache. *)
Example two_symbols_fetched :
  body (response (handler Sample.config Sample.runtime Sample.open_world
                    (JObj [("queryStringParameters", JObj [("symbols", JStr "AAPL,MSFT")])])))
  = MultiQuote None
      [{| qr_quote := Sample.quote "AAPL"; qr_cached := false |};
       {| qr_quote := Sample.quote "MSFT"; qr_cached := false |}]
      "2024-01-15T10:30:00.000Z" 0 2.
Proof. reflexivity. Qed.

(** Both symbols are in the cache and fresh: no request to the provider. *)
Example two_symbols_cached :
  let w := Sample.world (Sample.fixed (inr (Some (Sample.item "AAPL" 1705314601)))
                           (inl (Error "Network Error")) (inr tt) Sample.noon) in
  let r := handler Sample.config Sample.runtime w
             (JObj [("symbols", JArr [JStr "aapl"; JStr " aapl "])]) in
  body (response r)
    = MultiQuote None
        [{| qr_quote := Sample.quote "AAPL"; qr_cached := true |};
         {| qr_quote := Sample.quote "AAPL"; qr_cached := true |}]
        "2024-01-15T10:30:00.000Z" 2 0 /\
  List.filter is_http (concat (task_calls r)) = [].
Proof. split; reflexivity. Qed.

(** An entry that expires in this very second is not served. *)
Example entry_expiring_now_is_stale :
  outcome (run (Sample.fixed (inr (Some (Sample.item "AAPL" 1705314600)))
                  (inl (Error "Network Error")) (inr tt) Sample.noon)
             (getFromCache Sample.config "AAPL") tt)
  = Returned None.
Proof. reflexivity. Qed.

(** No symbol information at all: the default list, shape MULTI. *)
Example no_symbol_information :
  resolveSymbols (JObj []) = inr DEFAULT_SYMBOLS /\
  responseShape (JObj []) = inr MULTI.
Proof. split; reflexivity. Qed.

(** The table is unreachable for reads and writes: every symbol goes to the
    provider and the response still carries the quotes. *)
Example cache_unreachable :
  let w := Sample.world (Sample.fixed (inl (Error "connect ETIMEDOUT"))
                           (inr Sample.payload) (inl (Error "connect ETIMEDOUT"))
                           Sample.noon) in
  body (response (handler Sample.config Sample.runtime w SampleTasks.query_event))
  = MultiQuote None
      [{| qr_quote := Sample.quote "AAPL"; qr_cached := false |};
       {| qr_quote := Sample.quote "ZZZZ"; qr_cached := false |}]
      "2024-01-15T10:30:00.000Z" 0 2.
Proof. reflexivity. Qed.

(** An empty [symbols] array is the one event without symbols; an empty
    query string falls through to the default list. *)
Example empty_list_and_empty_string :
  body (response (handler Sample.config Sample.runtime Sample.open_world
                    (JObj [("symbols", JArr [])])))
    = Failure false "No symbols provided." "2024-01-15T10:30:00.000Z" /\
  resolveSymbols (JObj [("queryStringParameters", JObj [("symbols", JStr "")])])
    = inr DEFAULT_SYMBOLS.
Proof. split; reflexivity. Qed.

(** The path parameter wins over the query parameter and the list. *)
Example path_parameter_first :
  resolveSymbols
    (JObj [("symbols", JArr [JStr "msft"]);
           ("queryStringParameters", JObj [("symbols", JStr "nvda,tsla")]);
           ("pathParameters", JObj [("symbol", JStr " brk.b ")])])
  = inr ["BRK.B"].
Proof. reflexivity. Qed.

(** A symbol that is not a string has no [trim]: the handler's [catch]
    answers with the engine's message. *)
Example malformed_symbol :
  body (response (handler Sample.config Sample.runtime Sample.open_world
                    (JObj [("symbols", JArr [JStr "aapl"; JNum 7])])))
  = Failure false "s.trim is not a function" "2024-01-15T10:30:00.000Z".
Proof. reflexivity. Qed.

(** A numeric "10. change percent" has no [replace]: the fetch fails and
    the symbol is absent. *)
Example malformed_percent :
  let w := Sample.world
             (Sample.fixed (inr None)
                (inr (JObj [("Global Quote", JObj [("10. change percent", JNum 1)])]))
                (inr tt) Sample.noon) in
  body (response (handler Sample.config Sample.runtime w SampleTasks.path_event))
  = Failure false "Stock symbol 'ZZZZ' not found." "2024-01-15T10:30:00.000Z".
Proof. reflexivity. Qed.

(** A price that has no primitive value ([{toString: null}]): [parseFloat]
    throws inside the [try] of the fetch, which returns [null]; nothing is
    written to the cache and the symbol is absent. *)
Example unconvertible_price :
  let data := JObj [("Global Quote",
                     JObj [("05. price", JObj [("toString", JNull)])])] in
  let srv := Sample.fixed (inr None) (inr data) (inr tt) Sample.noon in
  outcome (run srv (fetchFromAlphaVantage Sample.config Sample.runtime "ZZZZ") tt)
    = Returned None /\
  List.filter is_put
    (calls (run srv (fetchQuoteWithCache Sample.config Sample.runtime "ZZZZ") tt)) = [] /\
  body (response (handler Sample.config Sample.runtime (Sample.world srv)
                    SampleTasks.path_event))
    = Failure false "Stock symbol 'ZZZZ' not found." "2024-01-15T10:30:00.000Z".
Proof. repeat split; reflexivity. Qed.

End Scenarios.

(** ** More on the orchestrator and the provider client *)

Module OrchestratorFacts.
Import Primary PrimaryFacts Observe.

(** Splits a statement about the three possible results and closes the
    cases that the result at hand excludes. *)
Ltac settle_cases :=
  split; [split; [intros Hne | intros (q' & Heq)]
         | split; [intros (q' & Heq) | intros Heq]];
  first [congruence | discriminate | split; reflexivity | reflexivity | eauto].

Section PerSymbol.
Context {S : Type} (srv : Service S) (cfg : Config) (rt : JsRuntime).

Lemma getFromCache_calls (symbol : string) (s : S) :
  let get := called (DynamoGet (CACHE_TABLE cfg) (cache_key symbol)) in
  calls (run srv (getFromCache cfg symbol) s) = [get] \/
  calls (run srv (getFromCache cfg symbol) s) = [get; called DateNow].
Proof.
  cbv zeta. rewrite run_getFromCache. destruct_answers.
  match goal with
  | |- context [match ?reply with inl _ => _ | inr _ => _ end] =>
      destruct reply as [e | [item |]]
  end; destruct_answers; auto.
Qed.

Lemma fetchFromAlphaVantage_calls (symbol : string) (s : S) :
  calls (run srv (fetchFromAlphaVantage cfg rt symbol) s) = [] \/
  calls (run srv (fetchFromAlphaVantage cfg rt symbol) s)
    = [called (provider_request cfg symbol)].
Proof.
  destruct (run_fetchFromAlphaVantage srv cfg rt symbol s) as (r & _ & Hm & Hk).
  destruct (api_key_missing cfg).
  - left. apply Hm. reflexivity.
  - right. apply Hk. reflexivity.
Qed.

Lemma saveToCache_calls (symbol : string) (q : Quote) (s : S) :
  exists item,
    calls (run srv (saveToCache cfg symbol q) s)
      = [called DateNow; called DateNow; called (DynamoPut (CACHE_TABLE cfg) item)].
Proof.
  rewrite run_saveToCache. destruct_answers. eexists. reflexivity.
Qed.

(** X1: whatever the service answers, the orchestrator starts with the
    read of the symbol's own key and reads the cache exactly once; it sends
    at most one request to the provider, and it is the GLOBAL_QUOTE request
    for the symbol with a timeout of 10000 ms; it writes at most once, and
    never without having sent the request. *)
Theorem one_read_one_request_one_write (symbol : string) (s : S) :
  let cs := calls (run srv (fetchQuoteWithCache cfg rt symbol) s) in
  let get := called (DynamoGet (CACHE_TABLE cfg) (cache_key symbol)) in
  hd_error cs = Some get /\
  List.filter is_get cs = [get] /\
  (List.filter is_http cs = [] \/
   List.filter is_http cs = [called (provider_request cfg symbol)]) /\
  (length (List.filter is_put cs) <= length (List.filter is_http cs))%nat /\
  (length (List.filter is_put cs) <= 1)%nat.
Proof.
  cbv zeta. rewrite run_fetchQuoteWithCache. cbv zeta.
  destruct (outcome (run srv (getFromCache cfg symbol) s)) as [[q |] | e];
    cbn [calls].
  1, 3: destruct (getFromCache_calls symbol s) as [-> | ->]; cbn; auto 10.
  set (s1 := final (run srv (getFromCache cfg symbol) s)).
  destruct (outcome (run srv (fetchFromAlphaVantage cfg rt symbol) s1))
    as [[q |] | e] eqn:E; cbn [calls].
  2, 3: destruct (getFromCache_calls symbol s) as [-> | ->];
     destruct (fetchFromAlphaVantage_calls symbol s1) as [-> | ->]; cbn; auto 10.
  set (s2 := final (run srv (fetchFromAlphaVantage cfg rt symbol) s1)).
  destruct (saveToCache_calls symbol q s2) as [item ->].
  destruct (fetchFromAlphaVantage_calls symbol s1) as [Hc | Hc].
  - exfalso.
    destruct (run_fetchFromAlphaVantage srv cfg rt symbol s1) as (r & Hr & Hm & Hk).
    destruct (api_key_missing cfg).
    + destruct (Hm eq_refl) as (-> & _). congruence.
    + destruct (Hk eq_refl) as (Hk1 & _). rewrite Hc in Hk1. discriminate.
  - rewrite Hc.
    destruct (getFromCache_calls symbol s) as [-> | ->]; cbn; auto 10.
Qed.

(** X2: the cache is written exactly when the orchestrator settles with a
    freshly fetched quote ([cached: false]); a result from the cache comes
    without any request to the provider, and an absent result leaves the
    cache untouched (failures are not cached). *)
Theorem cache_written_iff_fresh (symbol : string) (s : S) :
  let r := run srv (fetchQuoteWithCache cfg rt symbol) s in
  (List.filter is_put (calls r) <> [] <->
     exists q, outcome r = Returned (Some {| qr_quote := q; qr_cached := false |})) /\
  ((exists q, outcome r = Returned (Some {| qr_quote := q; qr_cached := true |})) ->
     List.filter is_http (calls r) = [] /\ List.filter is_put (calls r) = []) /\
  (outcome r = Returned None -> List.filter is_put (calls r) = []).
Proof.
  cbv zeta. rewrite run_fetchQuoteWithCache. cbv zeta.
  assert (Hg : List.filter is_put (calls (run srv (getFromCache cfg symbol) s)) = [] /\
               List.filter is_http (calls (run srv (getFromCache cfg symbol) s)) = []).
  { destruct (getFromCache_calls symbol s) as [-> | ->]; split; reflexivity. }
  destruct Hg as [Hgp Hgh].
  destruct (outcome (run srv (getFromCache cfg symbol) s)) as [[q |] | e];
    cbn [calls outcome].
  - rewrite Hgp, Hgh. settle_cases.
  - set (s1 := final (run srv (getFromCache cfg symbol) s)).
    pose proof (fetchFromAlphaVantage_no_put srv cfg rt symbol s1) as Hfp.
    destruct (outcome (run srv (fetchFromAlphaVantage cfg rt symbol) s1))
      as [[q |] | e]; cbn [calls outcome].
    + destruct (saveToCache_calls symbol q
                  (final (run srv (fetchFromAlphaVantage cfg rt symbol) s1)))
        as [item ->].
      rewrite !List.filter_app, Hgp, Hfp. cbn. settle_cases.
    + rewrite !List.filter_app, Hgp, Hfp. cbn. settle_cases.
    + rewrite !List.filter_app, Hgp, Hfp. cbn. settle_cases.
  - rewrite Hgp, Hgh. settle_cases.
Qed.


Lemma get_prop_of_truthy (v : JsVal) (name : string) :
  Js.truthy v = true -> exists x, Js.get_prop v name = inr x.
Proof. destruct v; simpl; try discriminate; eauto. Qed.

(** What a successful run of [fetchFromAlphaVantage] tells about the
    provider's answer. *)
Lemma fetch_some_inv (symbol : string) (s : S) (q : Quote) :
  outcome (run srv (fetchFromAlphaVantage cfg rt symbol) s) = Returned (Some q) ->
  api_key_missing cfg = false /\
  exists data em note global,
    fst (answer srv (provider_request cfg symbol) s) = inr data /\
    Js.get_prop data "Error Message" = inr em /\ Js.truthy em = false /\
    Js.get_prop data "Note" = inr note /\ Js.truthy note = false /\
    Js.get_prop data "Global Quote" = inr global /\
    Js.truthy global = true /\ Js.keys_length global <> 0%nat /\
    parse_quote rt symbol global = inr q.
Proof.
  unfold fetchFromAlphaVantage.
  destruct (api_key_missing cfg); [discriminate |]. simpl.
  destruct (answer srv (provider_request cfg symbol) s) as [reply s1]. simpl.
  destruct reply as [e | data]; simpl; [discriminate |].
  destruct (Js.get_prop data "Error Message") as [e | em] eqn:Eem; simpl; [discriminate |].
  destruct (Js.truthy em) eqn:Tem; simpl;
    [destruct (toText rt em); simpl; discriminate |].
  destruct (Js.get_prop data "Note") as [e | note] eqn:En; simpl; [discriminate |].
  destruct (Js.truthy note) eqn:Tn; simpl; [discriminate |].
  destruct (Js.get_prop data "Global Quote") as [e | global] eqn:Eg; simpl; [discriminate |].
  destruct (Js.truthy global) eqn:Tg; simpl; [| discriminate].
  destruct (Js.keys_length global =? 0)%nat eqn:Ek; simpl; [discriminate |].
  destruct (parse_quote rt symbol global) as [e | q'] eqn:Ep; simpl; [discriminate |].
  intros H. injection H as <-.
  split; [reflexivity |]. exists data, em, note, global.
  apply Nat.eqb_neq in Ek. auto 10.
Qed.

Lemma parse_quote_succeeds (symbol : string) (global pct : JsVal) :
  Js.truthy global = true ->
  Js.get_prop global "10. change percent" = inr pct ->
  replaceable pct = true ->
  conversions_succeed rt global ->
  exists q, parse_quote rt symbol global = inr q.
Proof.
  intros Tg Hpct Hr.
  unfold conversions_succeed, succeeds, field, parse_quote.
  destruct (get_prop_of_truthy global "05. price" Tg) as [? ->].
  destruct (get_prop_of_truthy global "09. change" Tg) as [? ->].
  destruct (get_prop_of_truthy global "06. volume" Tg) as [? ->].
  destruct (get_prop_of_truthy global "07. latest trading day" Tg) as [? ->].
  destruct (get_prop_of_truthy global "08. previous close" Tg) as [? ->].
  destruct (get_prop_of_truthy global "02. open" Tg) as [? ->].
  destruct (get_prop_of_truthy global "03. high" Tg) as [? ->].
  destruct (get_prop_of_truthy global "04. low" Tg) as [? ->].
  rewrite Hpct.
  intros ((a1 & C1) & (a2 & C2) & (a3 & C3) & (a4 & C4) & (a5 & C5) & (a6 & C6)
          & (a7 & C7) & (a8 & C8)).
  simpl. rewrite C1. simpl. rewrite C2. simpl.
  destruct pct; simpl in *; try discriminate;
    rewrite C3; simpl; rewrite C4; simpl; rewrite C5; simpl; rewrite C6; simpl;
    rewrite C7; simpl; rewrite C8; simpl; eauto.
Qed.

Lemma parse_quote_conversions (symbol : string) (global : JsVal) (q : Quote) :
  parse_quote rt symbol global = inr q ->
  (exists pct, Js.get_prop global "10. change percent" = inr pct /\
               replaceable pct = true) /\
  conversions_succeed rt global.
Proof.
  unfold parse_quote, conversions_succeed, succeeds, field.
  destruct (Js.get_prop global "05. price") as [e | x1]; simpl; [discriminate |].
  destruct (parseFloat rt x1) as [e | a1]; simpl; [discriminate |].
  destruct (Js.get_prop global "09. change") as [e | x2]; simpl; [discriminate |].
  destruct (parseFloat rt x2) as [e | a2]; simpl; [discriminate |].
  destruct (Js.get_prop global "10. change percent") as [e | pct]; simpl;
    [discriminate |].
  destruct pct; simpl; try discriminate.
  all: match goal with
       | |- context [parseFloat rt ?v ≫= _] =>
           destruct (parseFloat rt v) as [e | a3]; simpl; [discriminate |]
       end.
  all: destruct (Js.get_prop global "06. volume") as [e | x4]; simpl; [discriminate |].
  all: destruct (parseInt rt x4) as [e | a4]; simpl; [discriminate |].
  all: destruct (Js.get_prop global "07. latest trading day") as [e | day]; simpl;
         [discriminate |].
  all: destruct (Js.get_prop global "08. previous close") as [e | x5]; simpl;
         [discriminate |].
  all: destruct (parseFloat rt x5) as [e | a5]; simpl; [discriminate |].
  all: destruct (Js.get_prop global "02. open") as [e | x6]; simpl; [discriminate |].
  all: destruct (parseFloat rt x6) as [e | a6]; simpl; [discriminate |].
  all: destruct (Js.get_prop global "03. high") as [e | x7]; simpl; [discriminate |].
  all: destruct (parseFloat rt x7) as [e | a7]; simpl; [discriminate |].
  all: destruct (Js.get_prop global "04. low") as [e | x8]; simpl; [discriminate |].
  all: destruct (parseFloat rt x8) as [e | a8]; simpl; [discriminate |].
  all: intros _; split; [eexists; split; reflexivity | eauto 20].
Qed.



(** X4: [fetchFromAlphaVantage] returns a quote exactly when the API key is
    set, the request is answered with a payload that has neither a truthy
    "Error Message" nor a truthy "Note", its "Global Quote" is truthy with
    at least one key, the "10. change percent" field is a string or
    missing, and the engine's [parseFloat] and [parseInt] convert each of
    the eight numeric fields without throwing (they throw on an object that
    has no primitive value, such as one whose [toString] is [null]); in
    every other case it returns [null]. *)
Theorem fetch_succeeds_exactly_when (symbol : string) (s : S) :
  let r := run srv (fetchFromAlphaVantage cfg rt symbol) s in
  ((exists q, outcome r = Returned (Some q)) <->
     api_key_missing cfg = false /\
     exists data em note global pct,
       fst (answer srv (provider_request cfg symbol) s) = inr data /\
       Js.get_prop data "Error Message" = inr em /\ Js.truthy em = false /\
       Js.get_prop data "Note" = inr note /\ Js.truthy note = false /\
       Js.get_prop data "Global Quote" = inr global /\
       Js.truthy global = true /\ Js.keys_length global <> 0%nat /\
       Js.get_prop global "10. change percent" = inr pct /\
       replaceable pct = true /\
       conversions_succeed rt global) /\
  ((forall q, outcome r <> Returned (Some q)) -> outcome r = Returned None).
Proof.
  cbv zeta. split; [split |].
  - intros (q & H).
    destruct (fetch_some_inv symbol s q H)
      as (K & data & em & note & global & H1 & H2 & H3 & H4 & H5 & H6 & H7 & H8 & Hp).
    destruct (parse_quote_conversions symbol global q Hp) as ((pct & Hpct & Hr) & Hc).
    split; [exact K |]. exists data, em, note, global, pct. auto 12.
  - intros (K & data & em & note & global & pct
            & H1 & H2 & H3 & H4 & H5 & H6 & H7 & H8 & Hpct & Hr & Hc).
    destruct (parse_quote_succeeds symbol global pct H7 Hpct Hr Hc) as [q Hq].
    exists q. unfold fetchFromAlphaVantage. rewrite K. simpl.
    destruct (answer srv (provider_request cfg symbol) s) as [reply s1].
    simpl in H1. subst reply. simpl.
    rewrite H2. simpl. rewrite H3. simpl. rewrite H4. simpl. rewrite H5. simpl.
    rewrite H6. simpl. rewrite H7. simpl.
    apply Nat.eqb_neq in H8. rewrite H8. simpl.
    rewrite Hq. reflexivity.
  - intros Hnone.
    destruct (run_fetchFromAlphaVantage srv cfg rt symbol s) as (r & Hr & _).
    rewrite Hr in *. destruct r as [q |]; [| reflexivity].
    exfalso. exact (Hnone q eq_refl).
Qed.

End PerSymbol.


End OrchestratorFacts.

(** ** More on the handler: fan-out, responses and malformed events *)

Module HandlerFacts.
Import Primary PrimaryFacts PrimaryHandlerFacts Observe.

Lemma length_split (sep : ascii) (s : string) :
  length (JsString.split sep s) = Datatypes.S (count_char sep s).
Proof.
  induction s as [| c s IH]; simpl; [reflexivity |].
  destruct (Ascii.eqb c sep); simpl.
  - rewrite IH. reflexivity.
  - destruct (JsString.split sep s); simpl in *; lia.
Qed.

Lemma split_lookup_map (sep : ascii) (s : string) (f : string -> string) (i : nat)
    (seg : string) :
  JsString.split sep s !! i = Some seg ->
  map f (JsString.split sep s) !! i = Some (f seg).
Proof.
  intros H. change (map f (JsString.split sep s)) with (f <$> JsString.split sep s).
  rewrite list_lookup_fmap, H. reflexivity.
Qed.

Lemma map_trim_upper_fails (elems : list JsVal) (v : JsVal) :
  In v elems -> is_string v = false ->
  exists e, JsCall.map_trim_upper elems = inl e.
Proof.
  induction elems as [| x elems IH]; intros Hin Hv; [contradiction |].
  simpl. destruct (JsCall.trim "s" x) as [e | s] eqn:E; simpl; [eauto |].
  destruct Hin as [-> | Hin].
  - destruct v; simpl in *; discriminate.
  - destruct (IH Hin Hv) as [e ->]. simpl. eauto.
Qed.

Lemma map_trim_upper_fails_inv (elems : list JsVal) (e : Exn) :
  JsCall.map_trim_upper elems = inl e ->
  exists v, In v elems /\ is_string v = false.
Proof.
  revert e. induction elems as [| x elems IH]; intros e; simpl; [discriminate |].
  destruct x; simpl;
    try (intros _; eexists; split; [left; reflexivity | reflexivity]).
  destruct (JsCall.map_trim_upper elems) as [e' | ss]; simpl; [| discriminate].
  intros _. destruct (IH e' eq_refl) as (v & Hin & Hv). exists v. auto.
Qed.

Lemma guarded_prop_throws (event : JsVal) (outer inner : string) (e : Exn) :
  (v ← Js.get_prop event outer;
   if Js.truthy v then Js.get_prop v inner else mret v) = inl e ->
  event = JNull \/ event = JUndefined.
Proof.
  destruct event; simpl; auto; try discriminate.
  destruct (Js.assoc outer fields) as [| | [] | x | [] | |]; simpl; try discriminate.
  destruct (Js.num_truthy x); discriminate.
Qed.

Lemma path_symbol_throws (event : JsVal) (e : Exn) :
  path_symbol event = inl e -> event = JNull \/ event = JUndefined.
Proof. apply guarded_prop_throws. Qed.

Lemma query_symbols_throws (event : JsVal) (e : Exn) :
  query_symbols event = inl e -> event = JNull \/ event = JUndefined.
Proof. apply guarded_prop_throws. Qed.

Lemma resolver_throws_iff (event : JsVal) :
  (exists e, resolveSymbols event = inl e) <-> malformed event.
Proof.
  unfold resolveSymbols. split.
  - intros (e & H).
    destruct (path_symbol event) as [e0 | ps] eqn:Eps; simpl in H.
    { apply mal_event. exact (path_symbol_throws _ _ Eps). }
    destruct (Js.truthy ps) eqn:Tp.
    { apply (mal_path event ps Eps Tp).
      destruct ps; simpl in *; try reflexivity; discriminate. }
    destruct (query_symbols event) as [e0 | qs] eqn:Eqs; simpl in H.
    { destruct (query_symbols_throws _ _ Eqs) as [-> | ->]; discriminate. }
    destruct (Js.truthy qs) eqn:Tq.
    { apply (mal_query event ps qs Eps Tp Eqs Tq).
      destruct qs; simpl in *; try reflexivity; discriminate. }
    destruct (Js.get_prop event "symbols") as [e0 | es] eqn:Ees; simpl in H.
    { destruct event; simpl in *; discriminate. }
    destruct (Js.truthy es && is_array es) eqn:Ta; [| discriminate].
    destruct es; simpl in Ta; try discriminate;
      try (rewrite andb_false_r in Ta; discriminate).
    simpl in H. destruct (map_trim_upper_fails_inv _ _ H) as (v & Hin & Hv).
    exact (mal_list event ps qs elems v Eps Tp Eqs Tq Ees Hin Hv).
  - intros [[-> | ->] | ps Hps Tp Hs | ps qs Hps Tp Hqs Tq Hs
            | ps qs elems v Hps Tp Hqs Tq Hes Hin Hv].
    + simpl. eauto.
    + simpl. eauto.
    + rewrite Hps. simpl. rewrite Tp.
      destruct ps; simpl in *; try discriminate; eauto.
    + rewrite Hps. simpl. rewrite Tp, Hqs. simpl. rewrite Tq.
      destruct qs; simpl in *; try discriminate; eauto.
    + rewrite Hps. simpl. rewrite Tp, Hqs. simpl. rewrite Tq, Hes. simpl.
      apply (map_trim_upper_fails elems v Hin Hv).
Qed.

Section Handler.
Context {S : Type} (cfg : Config) (rt : JsRuntime) (w : World S).

(** X5: the resolver throws exactly on the malformed events: a [null]
    event, or a first present source of the wrong type (a path symbol or a
    query parameter that is not a string, a [symbols] array with an element
    that is not a string).  On such an event the handler answers 400 with
    an error body and has made no call to the cache or the provider, even
    when other elements of the list are valid. *)
Theorem malformed_event_rejected_before_any_call (event : JsVal) :
  ((exists e, resolveSymbols event = inl e) <-> malformed event) /\
  (malformed event ->
     statusCode (response (handler cfg rt w event)) = 400%Z /\
     is_failure (body (response (handler cfg rt w event))) = true /\
     task_calls (handler cfg rt w event) = []).
Proof.
  split; [apply resolver_throws_iff |].
  intros Hm. apply resolver_throws_iff in Hm. destruct Hm as [e He].
  unfold handler, handler_try. rewrite He. repeat split.
Qed.

(** X6: once the symbols are resolved, the handler starts one promise per
    requested symbol, in the order of the request, and each promise begins
    with the cache read of its own symbol's key: no symbol is dropped or
    merged, duplicates included. *)
Theorem one_promise_per_symbol (event : JsVal) (symbols : list string) :
  resolveSymbols event = inr symbols ->
  symbols <> [] ->
  length (task_calls (handler cfg rt w event)) = length symbols /\
  (forall i s_i, symbols !! i = Some s_i ->
     exists cs,
       task_calls (handler cfg rt w event) !! i = Some cs /\
       cs = calls (run (service w) (fetchQuoteWithCache cfg rt s_i) (task_state w i)) /\
       hd_error cs = Some (called (DynamoGet (CACHE_TABLE cfg) (cache_key s_i)))).
Proof.
  intros Hres Hne.
  destruct (resolve_each_settles cfg rt w symbols) as [quotes Hq].
  destruct (handler_composes cfg rt w event symbols quotes Hres Hne Hq) as [_ Hc].
  rewrite Hc. split.
  - rewrite length_map. unfold resolve_each. apply length_imap.
  - intros i s_i Hi. eexists. split; [| split; [reflexivity |]].
    + change (map calls (resolve_each cfg rt w symbols))
        with (calls <$> resolve_each cfg rt w symbols).
      rewrite list_lookup_fmap, (resolve_each_lookup cfg rt w symbols i s_i Hi).
      reflexivity.
    + rewrite run_fetchQuoteWithCache. cbv zeta.
      assert (Hhd : forall rest,
                hd_error (calls (run (service w) (getFromCache cfg s_i) (task_state w i))
                            ++ rest)
                = Some (called (DynamoGet (CACHE_TABLE cfg) (cache_key s_i)))).
      { intros rest. rewrite run_getFromCache. destruct_answers.
        match goal with
        | |- context [match ?reply with inl _ => _ | inr _ => _ end] =>
            destruct reply as [e | [item |]]
        end; destruct_answers; reflexivity. }
      destruct (outcome (run (service w) (getFromCache cfg s_i) (task_state w i)))
        as [[q |] | e]; cbn [calls].
      * rewrite <- (app_nil_r (calls _)). apply Hhd.
      * destruct (outcome (run (service w) (fetchFromAlphaVantage cfg rt s_i) _))
          as [[q |] | e]; cbn [calls]; apply Hhd.
      * rewrite <- (app_nil_r (calls _)). apply Hhd.
Qed.

(** X7: a path request whose symbol is found is answered 200 with the
    trimmed, upper-cased symbol, the quote, and a top-level [cached] flag
    equal to the quote's own. *)
Theorem found_symbol_single_response (event : JsVal) (s : string) (q : QuoteResult) :
  path_symbol event = inr (JStr s) -> s <> "" ->
  outcome (run (service w) (fetchQuoteWithCache cfg rt (JsString.trim_upper s))
             (task_state w 0%nat))
    = Returned (Some q) ->
  response (handler cfg rt w event)
    = successResponse (SingleQuote (JsString.trim_upper s) q (qr_cached q)).
Proof.
  intros Hps Hs Hrun.
  assert (Hres : resolveSymbols event = inr [JsString.trim_upper s]).
  { unfold resolveSymbols. rewrite Hps. simpl. destruct s; [congruence | reflexivity]. }
  destruct (handler_composes cfg rt w event [JsString.trim_upper s] [Some q] Hres)
    as [Hc _];
    [discriminate | unfold resolve_each; cbn [imap map]; rewrite Hrun; reflexivity |].
  unfold compose, responseShape in Hc. rewrite Hps in Hc. simpl in Hc.
  destruct s; [congruence |]. simpl in Hc.
  injection Hc as ->. rewrite orb_false_r. reflexivity.
Qed.

(** X8: every response of the handler is either [successResponse] of a
    quote or multi-quote body (status 200) or [errorResponse] of a message
    that is not empty (status 400, [success: false]); both carry the header
    Access-Control-Allow-Origin: *.  No other status is ever produced. *)
Theorem response_is_200_or_400 (event : JsVal) :
  let r := response (handler cfg rt w event) in
  ((exists b, r = successResponse b /\ is_failure b = false) \/
   (exists msg, r = errorResponse msg (reply_clock w) /\ msg <> "")) /\
  In ("Access-Control-Allow-Origin", "*") (headers r).
Proof.
  cbv zeta.
  assert (Hmsg : forall e, JsCall.message_or_unknown e <> "").
  { intros e. unfold JsCall.message_or_unknown.
    destruct (message e); simpl; discriminate. }
  assert (Hcases :
    (exists b, response (handler cfg rt w event) = successResponse b /\
               is_failure b = false) \/
    (exists msg, response (handler cfg rt w event) = errorResponse msg (reply_clock w) /\
                 msg <> "")).
  { unfold handler, handler_try.
    destruct (resolveSymbols event) as [e | symbols]; [right; eauto |].
    destruct (length symbols =? 0)%nat.
    { right. eexists. split; [reflexivity | discriminate]. }
    cbv zeta.
    destruct (promise_all (map outcome (resolve_each cfg rt w symbols)))
      as [e | quotes]; simpl; [right; eauto |].
    unfold compose.
    destruct (responseShape event) as [e | [|]]; simpl; [right; eauto | |].
    - destruct (omap id quotes) as [| q rest].
      + right. eexists. split; [reflexivity | discriminate].
      + left. eexists. split; reflexivity.
    - left. eexists. split; reflexivity. }
  split; [exact Hcases |].
  destruct Hcases as [(b & -> & _) | (msg & -> & _)]; simpl; auto.
Qed.

(** X9: a non-empty query string with n commas resolves to n + 1 symbols,
    one per segment in order, each trimmed and upper-cased: empty segments
    (as in "AAPL,,MSFT" or after a trailing comma) are kept as empty
    symbols, and repeated symbols are kept. *)
Theorem query_keeps_every_segment (event ps : JsVal) (s : string) :
  path_symbol event = inr ps -> Js.truthy ps = false ->
  query_symbols event = inr (JStr s) -> s <> "" ->
  exists symbols,
    resolveSymbols event = inr symbols /\
    length symbols = Datatypes.S (count_char "," s) /\
    (forall i seg, JsString.split "," s !! i = Some seg ->
                   symbols !! i = Some (JsString.trim_upper seg)).
Proof.
  intros Hps Tp Hqs Hs. eexists. split; [| split].
  - unfold resolveSymbols. rewrite Hps. simpl. rewrite Tp, Hqs. simpl.
    destruct s; [congruence | reflexivity].
  - rewrite length_map. apply length_split.
  - intros i seg Hseg.
    apply (split_lookup_map "," s (fun x => JsString.toUpperCase (JsString.trim x))).
    exact Hseg.
Qed.

Lemma not_cached_without_entry (symbol : string) (st : S) (qr : QuoteResult) :
  (forall st' table key item,
     fst (answer (service w) (DynamoGet table key) st') <> inr (Some item)) ->
  outcome (run (service w) (fetchQuoteWithCache cfg rt symbol) st) = Returned (Some qr) ->
  qr_cached qr = false.
Proof.
  intros Hno. rewrite run_fetchQuoteWithCache. cbv zeta.
  rewrite run_getFromCache. cbv zeta.
  pose proof (Hno st (CACHE_TABLE cfg) (cache_key symbol)) as Hn.
  destruct (answer (service w) (DynamoGet (CACHE_TABLE cfg) (cache_key symbol)) st)
    as [[e | [item |]] s1]; cbn [fst outcome final] in *.
  - destruct (outcome (run (service w) (fetchFromAlphaVantage cfg rt symbol) s1))
      as [[q |] | e']; cbn [outcome]; intros H; try discriminate.
    injection H as <-. reflexivity.
  - exfalso. exact (Hn item eq_refl).
  - destruct (outcome (run (service w) (fetchFromAlphaVantage cfg rt symbol) s1))
      as [[q |] | e']; cbn [outcome]; intros H; try discriminate.
    injection H as <-. reflexivity.
Qed.

Lemma settled_quotes_forall (P : QuoteResult -> Prop) (symbols : list string)
    (quotes : list (option QuoteResult)) :
  (forall symbol st qr,
     outcome (run (service w) (fetchQuoteWithCache cfg rt symbol) st) = Returned (Some qr) ->
     P qr) ->
  promise_all (map outcome (resolve_each cfg rt w symbols)) = inr quotes ->
  Forall P (omap id quotes).
Proof.
  intros HP. unfold resolve_each.
  assert (Hf : forall (f : nat -> string -> Run S (option QuoteResult)),
            (forall i symbol, exists st,
               f i symbol = run (service w) (fetchQuoteWithCache cfg rt symbol) st) ->
            forall quotes', promise_all (map outcome (imap f symbols)) = inr quotes' ->
            Forall P (omap id quotes')).
  { clear quotes. induction symbols as [| x l IH]; intros f Hf quotes' H; simpl in H.
    - injection H as <-. constructor.
    - destruct (outcome (f 0%nat x)) as [v | e] eqn:E; [| discriminate].
      destruct (promise_all (map outcome (imap (f ∘ Datatypes.S) l))) as [e | rest] eqn:Er;
        simpl in H; [discriminate |].
      injection H as <-.
      assert (Hrest : Forall P (omap id rest)).
      { apply (IH (f ∘ Datatypes.S)); [| exact Er]. intros i symbol. apply Hf. }
      destruct v as [qr |]; simpl; [| exact Hrest].
      constructor; [| exact Hrest].
      destruct (Hf 0%nat x) as [st Hst]. rewrite Hst in E. exact (HP x st qr E). }
  intros H. apply (Hf (fun i symbol =>
                          run (service w) (fetchQuoteWithCache cfg rt symbol)
                            (task_state w i))); [| exact H].
  intros i symbol. eexists. reflexivity.
Qed.

Lemma filter_none {A : Type} (f : A -> bool) (l : list A) :
  Forall (fun x => f x = false) l -> List.filter f l = [].
Proof.
  induction 1 as [| x l Hx _ IH]; simpl; [reflexivity |].
  rewrite Hx. exact IH.
Qed.

(** X10: when no cache read finds an entry (the table is empty, or every
    read is rejected), no quote of the response is marked as cached: a
    multi-quote response reports cached 0 and counts every quote as fresh,
    and a single-quote response carries [cached: false]. *)
Theorem nothing_cached_without_entries (event : JsVal) :
  (forall st table key item,
     fst (answer (service w) (DynamoGet table key) st) <> inr (Some item)) ->
  match body (response (handler cfg rt w event)) with
  | MultiQuote _ quotes _ cached fresh =>
      cached = 0%nat /\ fresh = length quotes /\
      Forall (fun q => qr_cached q = false) quotes
  | SingleQuote _ q cached => cached = false /\ qr_cached q = false
  | Failure _ _ _ => True
  end.
Proof.
  intros Hno. unfold handler, handler_try.
  destruct (resolveSymbols event) as [e | symbols]; [exact I |].
  destruct (length symbols =? 0)%nat; [exact I |].
  cbv zeta.
  destruct (promise_all (map outcome (resolve_each cfg rt w symbols)))
    as [e | quotes] eqn:Hq; simpl; [exact I |].
  pose proof (settled_quotes_forall (fun q => qr_cached q = false) symbols quotes
                (fun symbol st qr => not_cached_without_entry symbol st qr Hno) Hq)
    as Hall.
  unfold compose.
  destruct (responseShape event) as [e | [|]]; simpl; [exact I | |].
  - destruct (omap id quotes) as [| q rest]; simpl; [exact I |].
    inversion Hall as [| ? ? Hq0 _]; subst. rewrite Hq0. auto.
  - pose proof (filter_none (fun q => qr_cached q) (omap id quotes) Hall) as Hnone.
    pose proof (length_filter_split (fun q => qr_cached q) (omap id quotes)) as Hlen.
    rewrite Hnone in Hlen. simpl in Hlen.
    split; [| split; [exact Hlen | exact Hall]].
    exact (f_equal (@length QuoteResult) Hnone).
Qed.

End Handler.

(** The scheduled list [["aapl", 7]]: the second element is a number. *)
Lemma malformed_event_rejected_before_any_call_witness :
  statusCode (response (handler Sample.config Sample.runtime Sample.open_world
                          (JObj [("symbols", JArr [JStr "aapl"; JNum 7])]))) = 400%Z /\
  is_failure (body (response (handler Sample.config Sample.runtime Sample.open_world
                                (JObj [("symbols", JArr [JStr "aapl"; JNum 7])])))) = true /\
  task_calls (handler Sample.config Sample.runtime Sample.open_world
                (JObj [("symbols", JArr [JStr "aapl"; JNum 7])])) = [].
Proof.
  apply (proj2 (malformed_event_rejected_before_any_call Sample.config Sample.runtime
                  Sample.open_world (JObj [("symbols", JArr [JStr "aapl"; JNum 7])]))).
  apply (mal_list _ JUndefined JUndefined [JStr "aapl"; JNum 7] (JNum 7));
    try reflexivity.
  right. left. reflexivity.
Defined.

(** [GET /stock?symbols=aapl, zzzz]: two promises. *)
Lemma one_promise_per_symbol_witness :
  length (task_calls (handler Sample.config Sample.runtime Sample.open_world
                        SampleTasks.query_event)) = 2%nat /\
  (forall i s_i, ["AAPL"; "ZZZZ"] !! i = Some s_i ->
     exists cs,
       task_calls (handler Sample.config Sample.runtime Sample.open_world
                     SampleTasks.query_event) !! i = Some cs /\
       cs = calls (run (service Sample.open_world)
                     (fetchQuoteWithCache Sample.config Sample.runtime s_i)
                     (task_state Sample.open_world i)) /\
       hd_error cs = Some (called (DynamoGet (CACHE_TABLE Sample.config) (cache_key s_i)))).
Proof.
  apply (one_promise_per_symbol Sample.config Sample.runtime Sample.open_world
           SampleTasks.query_event ["AAPL"; "ZZZZ"]).
  - reflexivity.
  - discriminate.
Defined.

(** [GET /stock/zzzz] when the cache holds a fresh entry. *)
Lemma found_symbol_single_response_witness :
  response (handler Sample.config Sample.runtime
              (Sample.world (Sample.fixed (inr (Some (Sample.item "ZZZZ" 1705314645)))
                               (inl (Error "Network Error")) (inr tt) Sample.noon))
              SampleTasks.path_event)
    = successResponse
        (SingleQuote "ZZZZ" {| qr_quote := Sample.quote "ZZZZ"; qr_cached := true |} true).
Proof.
  apply (found_symbol_single_response Sample.config Sample.runtime
           (Sample.world (Sample.fixed (inr (Some (Sample.item "ZZZZ" 1705314645)))
                            (inl (Error "Network Error")) (inr tt) Sample.noon))
           SampleTasks.path_event "zzzz"
           {| qr_quote := Sample.quote "ZZZZ"; qr_cached := true |}).
  - reflexivity.
  - discriminate.
  - reflexivity.
Defined.

(** [GET /stock?symbols=AAPL,,msft,]: four symbols, two of them empty. *)
Lemma query_keeps_every_segment_witness :
  exists symbols,
    resolveSymbols (JObj [("queryStringParameters", JObj [("symbols", JStr "AAPL,,msft,")])])
      = inr symbols /\
    length symbols = 4%nat /\
    (forall i seg, ["AAPL"; ""; "msft"; ""] !! i = Some seg ->
                   symbols !! i = Some (JsString.trim_upper seg)).
Proof.
  apply (query_keeps_every_segment
           (JObj [("queryStringParameters", JObj [("symbols", JStr "AAPL,,msft,")])])
           JUndefined "AAPL,,msft,").
  - reflexivity.
  - reflexivity.
  - reflexivity.
  - discriminate.
Defined.

(** The table rejects every read; the provider answers. *)
Lemma nothing_cached_without_entries_witness :
  match body (response (handler Sample.config Sample.runtime
                          (Sample.world (Sample.fixed (inl (Error "connect ETIMEDOUT"))
                                           (inr Sample.payload) (inr tt) Sample.noon))
                          SampleTasks.query_event)) with
  | MultiQuote _ quotes _ cached fresh =>
      cached = 0%nat /\ fresh = length quotes /\
      Forall (fun q => qr_cached q = false) quotes
  | SingleQuote _ q cached => cached = false /\ qr_cached q = false
  | Failure _ _ _ => True
  end.
Proof.
  apply (nothing_cached_without_entries Sample.config Sample.runtime
           (Sample.world (Sample.fixed (inl (Error "connect ETIMEDOUT"))
                            (inr Sample.payload) (inr tt) Sample.noon))
           SampleTasks.query_event).
  intros st table key item. discriminate.
Defined.

End HandlerFacts.

(** ** The orchestrator against a table and a provider *)

Module CacheAsideFacts.
Import Primary PrimaryFacts Observe.

Section Backed.
Context (cfg : Config) (rt : JsRuntime) (provider : list (string * string) -> Exn + JsVal).

Abbreviation backend := (Backend.service "dataType" provider).
Abbreviation stored_item := (Backend.stored_item cfg).

Lemma backend_lookup (symbol : string) (st : Table.State) :
  run backend (getFromCache cfg symbol) st =
    {| outcome :=
         Returned
           match Table.rows st !! Table.row_of (CACHE_TABLE cfg) (cache_key symbol) with
           | Some item =>
               if (JsDate.epoch_seconds (Table.clock st) <? item_ttl item)%Z
               then Some (item_data item) else None
           | None => None
           end;
       calls :=
         called (DynamoGet (CACHE_TABLE cfg) (cache_key symbol)) ::
         match Table.rows st !! Table.row_of (CACHE_TABLE cfg) (cache_key symbol) with
         | Some _ => [called DateNow]
         | None => []
         end;
       final := st |}.
Proof.
  rewrite run_getFromCache. cbn -[Z.ltb JsDate.epoch_seconds lookup].
  destruct (Table.rows st !! Table.row_of (CACHE_TABLE cfg) (cache_key symbol));
    reflexivity.
Qed.

Lemma backend_fetch_final (symbol : string) (st : Table.State) :
  final (run backend (fetchFromAlphaVantage cfg rt symbol) st) = st.
Proof.
  destruct (run_fetchFromAlphaVantage backend cfg rt symbol st) as (r & _ & Hm & Hk).
  destruct (api_key_missing cfg).
  - apply Hm. reflexivity.
  - destruct (Hk eq_refl) as (_ & ->). reflexivity.
Qed.

Lemma backend_save_final (symbol : string) (q : Quote) (st : Table.State) :
  final (run backend (saveToCache cfg symbol q) st) =
    {| Table.rows :=
         <[Table.row_of (CACHE_TABLE cfg) (cache_key symbol)
           := stored_item symbol q (Table.clock st)]> (Table.rows st);
       Table.clock := Table.clock st |}.
Proof. rewrite run_saveToCache. reflexivity. Qed.

(** X11: cache-aside population.  When a resolution at clock [t0] fetched a
    quote from the provider, a second resolution of the same symbol, at any
    clock whose second is before the second of [t0] plus [CACHE_TTL], is
    answered from the cache with the very same quote, marked [cached:
    true], and sends no request to the provider. *)
Theorem fetched_quote_served_from_cache_next (symbol : string) (q : Quote)
    (st : Table.State) (t0 t1 : Z) :
  outcome (run backend (fetchQuoteWithCache cfg rt symbol) (Table.at_time st t0))
    = Returned (Some {| qr_quote := q; qr_cached := false |}) ->
  (JsDate.epoch_seconds t1 < JsDate.epoch_seconds t0 + CACHE_TTL cfg)%Z ->
  outcome
    (run backend (fetchQuoteWithCache cfg rt symbol)
       (Table.at_time
          (final (run backend (fetchQuoteWithCache cfg rt symbol) (Table.at_time st t0)))
          t1))
    = Returned (Some {| qr_quote := q; qr_cached := true |}) /\
  List.filter is_http
    (calls
       (run backend (fetchQuoteWithCache cfg rt symbol)
          (Table.at_time
             (final (run backend (fetchQuoteWithCache cfg rt symbol)
                       (Table.at_time st t0)))
             t1))) = [].
Proof.
  intros Hfirst Hfresh.
  assert (Hfinal :
    final (run backend (fetchQuoteWithCache cfg rt symbol) (Table.at_time st t0)) =
      {| Table.rows :=
           <[Table.row_of (CACHE_TABLE cfg) (cache_key symbol)
             := stored_item symbol q t0]> (Table.rows st);
         Table.clock := t0 |}).
  { revert Hfirst. rewrite run_fetchQuoteWithCache. cbv zeta.
    rewrite backend_lookup. cbn [outcome final].
    destruct (match Table.rows (Table.at_time st t0) !! _ with
              | Some _ => _ | None => _ end) as [q0 |]; cbn [outcome final];
      [discriminate |].
    destruct (outcome (run backend (fetchFromAlphaVantage cfg rt symbol)
                         (Table.at_time st t0))) as [[q' |] | e] eqn:E;
      cbn [outcome final]; try discriminate.
    intros H. injection H as <-.
    rewrite backend_fetch_final, backend_save_final. reflexivity. }
  rewrite Hfinal. rewrite run_fetchQuoteWithCache. cbv zeta.
  rewrite backend_lookup.
  cbn -[Z.ltb JsDate.epoch_seconds Z.add JsDate.toISOString lookup insert].
  rewrite lookup_insert_eq.
  cbn -[Z.ltb JsDate.epoch_seconds Z.add JsDate.toISOString].
  apply Z.ltb_lt in Hfresh. rewrite Hfresh. split; reflexivity.
Qed.

(** X12: storing a quote for one symbol changes nothing for another
    symbol: a lookup of the other symbol gives the same result, with the
    same calls, as before the store. *)
Theorem store_leaves_other_symbols (symbol other : string) (q : Quote)
    (st : Table.State) :
  symbol <> other ->
  outcome (run backend (getFromCache cfg other)
             (final (run backend (saveToCache cfg symbol q) st)))
    = outcome (run backend (getFromCache cfg other) st) /\
  calls (run backend (getFromCache cfg other)
           (final (run backend (saveToCache cfg symbol q) st)))
    = calls (run backend (getFromCache cfg other) st).
Proof.
  intros Hne. rewrite backend_save_final, !backend_lookup.
  cbn -[Z.ltb JsDate.epoch_seconds lookup insert].
  rewrite lookup_insert_ne; [split; reflexivity |].
  unfold Table.row_of, cache_key. cbn. intros H. injection H as H. congruence.
Qed.

(** X13: the last store wins.  A second store for a symbol replaces the
    first one's entry entirely: the table is the same as if only the second
    store had happened, so a lookup before the second store's expiry
    returns the second quote. *)
Theorem last_store_wins (symbol : string) (q1 q2 : Quote) (st : Table.State)
    (t2 t3 : Z) :
  (JsDate.epoch_seconds t3 < JsDate.epoch_seconds t2 + CACHE_TTL cfg)%Z ->
  final (run backend (saveToCache cfg symbol q2)
           (Table.at_time (final (run backend (saveToCache cfg symbol q1) st)) t2))
    = final (run backend (saveToCache cfg symbol q2) (Table.at_time st t2)) /\
  outcome
    (run backend (getFromCache cfg symbol)
       (Table.at_time
          (final (run backend (saveToCache cfg symbol q2)
                    (Table.at_time (final (run backend (saveToCache cfg symbol q1) st))
                       t2)))
          t3))
    = Returned (Some q2).
Proof.
  intros Hfresh. rewrite backend_lookup, !backend_save_final.
  cbn -[Z.ltb JsDate.epoch_seconds Z.add JsDate.toISOString lookup insert].
  rewrite insert_insert_eq, lookup_insert_eq.
  cbn -[Z.ltb JsDate.epoch_seconds Z.add JsDate.toISOString].
  apply Z.ltb_lt in Hfresh. rewrite Hfresh. split; reflexivity.
Qed.

(** X14: an entry is not served from the second of its expiry on, although
    the table still holds it: a lookup at a clock whose second is at or
    after the second of the store plus [CACHE_TTL] returns [null]. *)
Theorem expired_entry_is_a_miss (symbol : string) (q : Quote) (st : Table.State)
    (t0 t1 : Z) :
  (JsDate.epoch_seconds t0 + CACHE_TTL cfg <= JsDate.epoch_seconds t1)%Z ->
  outcome
    (run backend (getFromCache cfg symbol)
       (Table.at_time (final (run backend (saveToCache cfg symbol q)
                                (Table.at_time st t0))) t1))
    = Returned None /\
  Table.rows (final (run backend (saveToCache cfg symbol q) (Table.at_time st t0)))
    !! Table.row_of (CACHE_TABLE cfg) (cache_key symbol)
    = Some (stored_item symbol q t0).
Proof.
  intros Hexp. rewrite backend_save_final, backend_lookup.
  cbn -[Z.ltb JsDate.epoch_seconds Z.add JsDate.toISOString lookup insert].
  rewrite lookup_insert_eq.
  cbn -[Z.ltb JsDate.epoch_seconds Z.add JsDate.toISOString].
  apply Z.ltb_ge in Hexp. rewrite Hexp. split; reflexivity.
Qed.

End Backed.

(** A first request at 10:30:00.000 and a second one 44.999 s later. *)
Lemma fetched_quote_served_from_cache_next_witness :
  outcome
    (run (Backend.service "dataType" Backend.sample_provider)
       (fetchQuoteWithCache Sample.config Sample.runtime "AAPL")
       (Table.at_time
          (final (run (Backend.service "dataType" Backend.sample_provider)
                    (fetchQuoteWithCache Sample.config Sample.runtime "AAPL")
                    (Table.at_time Backend.empty_table Sample.noon)))
          (Sample.noon + 44999)))
    = Returned (Some {| qr_quote := Sample.quote "AAPL"; qr_cached := true |}) /\
  List.filter is_http
    (calls
       (run (Backend.service "dataType" Backend.sample_provider)
          (fetchQuoteWithCache Sample.config Sample.runtime "AAPL")
          (Table.at_time
             (final (run (Backend.service "dataType" Backend.sample_provider)
                       (fetchQuoteWithCache Sample.config Sample.runtime "AAPL")
                       (Table.at_time Backend.empty_table Sample.noon)))
             (Sample.noon + 44999)))) = [].
Proof.
  apply (fetched_quote_served_from_cache_next Sample.config Sample.runtime
           Backend.sample_provider "AAPL" (Sample.quote "AAPL") Backend.empty_table Sample.noon
           (Sample.noon + 44999)).
  - vm_compute. reflexivity.
  - vm_compute. reflexivity.
Defined.

Lemma store_leaves_other_symbols_witness :
  outcome (run (Backend.service "dataType" Backend.sample_provider)
             (getFromCache Sample.config "MSFT")
             (final (run (Backend.service "dataType" Backend.sample_provider)
                       (saveToCache Sample.config "AAPL" (Sample.quote "AAPL"))
                       Backend.empty_table)))
    = outcome (run (Backend.service "dataType" Backend.sample_provider)
                 (getFromCache Sample.config "MSFT") Backend.empty_table) /\
  calls (run (Backend.service "dataType" Backend.sample_provider)
           (getFromCache Sample.config "MSFT")
           (final (run (Backend.service "dataType" Backend.sample_provider)
                     (saveToCache Sample.config "AAPL" (Sample.quote "AAPL"))
                     Backend.empty_table)))
    = calls (run (Backend.service "dataType" Backend.sample_provider)
               (getFromCache Sample.config "MSFT") Backend.empty_table).
Proof.
  apply (store_leaves_other_symbols Sample.config Backend.sample_provider "AAPL" "MSFT"
           (Sample.quote "AAPL") Backend.empty_table).
  discriminate.
Defined.

Lemma last_store_wins_witness :
  outcome
    (run (Backend.service "dataType" Backend.sample_provider)
       (getFromCache Sample.config "AAPL")
       (Table.at_time
          (final (run (Backend.service "dataType" Backend.sample_provider)
                    (saveToCache Sample.config "AAPL" (Sample.quote "AAPL"))
                    (Table.at_time
                       (final (run (Backend.service "dataType" Backend.sample_provider)
                                 (saveToCache Sample.config "AAPL" (Sample.quote "MSFT"))
                                 Backend.empty_table))
                       Sample.noon)))
          (Sample.noon + 1000)))
    = Returned (Some (Sample.quote "AAPL")).
Proof.
  apply (proj2 (last_store_wins Sample.config Backend.sample_provider "AAPL"
                  (Sample.quote "MSFT") (Sample.quote "AAPL") Backend.empty_table
                  Sample.noon (Sample.noon + 1000)
                  ltac:(vm_compute; reflexivity))).
Defined.

(** Stored at 10:30:00.000, read exactly 45 s later. *)
Lemma expired_entry_is_a_miss_witness :
  outcome
    (run (Backend.service "dataType" Backend.sample_provider)
       (getFromCache Sample.config "AAPL")
       (Table.at_time
          (final (run (Backend.service "dataType" Backend.sample_provider)
                    (saveToCache Sample.config "AAPL" (Sample.quote "AAPL"))
                    (Table.at_time Backend.empty_table Sample.noon)))
          (Sample.noon + 45000)))
    = Returned None.
Proof.
  apply (proj1 (expired_entry_is_a_miss Sample.config Backend.sample_provider "AAPL"
                  (Sample.quote "AAPL") Backend.empty_table Sample.noon (Sample.noon + 45000)
                  ltac:(vm_compute; discriminate))).
Defined.

End CacheAsideFacts.

(** ** The second copy's cache, keyed by the day *)

Module VariantFacts.
Import Observe.

Lemma first_segment_prefix (c : ascii) (prefix r1 r2 : string) :
  Observe.first_segment c (prefix ++ String c r1) = Observe.first_segment c (prefix ++ String c r2).
Proof.
  unfold Observe.first_segment.
  induction prefix as [| d prefix IH]; simpl.
  - rewrite Ascii.eqb_refl. reflexivity.
  - destruct (Ascii.eqb d c); [reflexivity |].
    pose proof (JsStringFacts.split_not_nil c (prefix ++ String c r1)) as N1.
    pose proof (JsStringFacts.split_not_nil c (prefix ++ String c r2)) as N2.
    destruct (JsString.split c (prefix ++ String c r1)),
             (JsString.split c (prefix ++ String c r2)); simpl in *; congruence.
Qed.

Lemma append_assoc (a b c : string) : ((a ++ b) ++ c = a ++ (b ++ c))%string.
Proof.
  induction a as [| x a IH]; [reflexivity |].
  change (String x ((a ++ b) ++ c) = String x (a ++ (b ++ c)))%string.
  f_equal. exact IH.
Qed.

(** The day of a clock value decides [today]. *)
Lemma today_same_day (ms1 ms2 : Z) :
  (ms1 / 86400000 = ms2 / 86400000)%Z -> Variant.today ms1 = Variant.today ms2.
Proof.
  intros Hday. unfold Variant.today.
  change (match JsString.split "T" (JsDate.toISOString ms1) with
          | d :: _ => d | [] => "undefined" end)
    with (Observe.first_segment "T" (JsDate.toISOString ms1)).
  change (match JsString.split "T" (JsDate.toISOString ms2) with
          | d :: _ => d | [] => "undefined" end)
    with (Observe.first_segment "T" (JsDate.toISOString ms2)).
  unfold JsDate.toISOString. cbv zeta. rewrite Hday.
  destruct (JsDate.civil_from_days (ms2 / 86400000)) as [[y m] d].
  assert (Hshape : forall a1 a2 a3 a4 a5 r : string,
            (a1 ++ a2 ++ a3 ++ a4 ++ a5 ++ "T" ++ r
             = (a1 ++ a2 ++ a3 ++ a4 ++ a5) ++ String "T" r)%string).
  { intros a1 a2 a3 a4 a5 r. rewrite !append_assoc. reflexivity. }
  rewrite !Hshape.
  apply first_segment_prefix.
Qed.

Section Keyed.
Context (cfg : Config).

Abbreviation variant_item := (Backend.variant_item cfg).

Lemma variant_save_final (sort_attr : string) (symbol : string) (q : Quote)
    (st : Table.State) :
  final (run (Table.service sort_attr) (Variant.saveToCache cfg symbol q) st) =
    if String.eqb "date" sort_attr
    then {| Table.rows :=
              <[(CACHE_TABLE cfg, symbol, Variant.today (Table.clock st))
                := variant_item symbol q (Table.clock st)]> (Table.rows st);
            Table.clock := Table.clock st |}
    else st.
Proof.
  unfold Variant.saveToCache.
  cbn -[Variant.today JsDate.epoch_seconds JsDate.toISOString Z.add insert String.eqb].
  destruct (String.eqb "date" sort_attr); reflexivity.
Qed.

Lemma variant_lookup (sort_attr : string) (symbol : string) (st : Table.State) :
  outcome (run (Table.service sort_attr) (Variant.getFromCache cfg symbol) st) =
    Returned
      (if String.eqb "date" sort_attr
       then match Table.rows st
                    !! (CACHE_TABLE cfg, symbol, Variant.today (Table.clock st)) with
            | Some item =>
                if (JsDate.epoch_seconds (Table.clock st) <? item_ttl item)%Z
                then Some (item_data item) else None
            | None => None
            end
       else None).
Proof.
  unfold Variant.getFromCache.
  cbn -[Variant.today JsDate.epoch_seconds Z.ltb lookup String.eqb].
  destruct (String.eqb "date" sort_attr); [| reflexivity].
  cbn -[Variant.today JsDate.epoch_seconds Z.ltb lookup].
  destruct (Table.rows st !! _) as [item |]; [| reflexivity].
  cbn -[Variant.today JsDate.epoch_seconds Z.ltb lookup].
  destruct (JsDate.epoch_seconds (Table.clock st) <? item_ttl item)%Z; reflexivity.
Qed.

(** X15: the second copy's round trip holds within one UTC day: after its
    [saveToCache] has written a quote, its [getFromCache] for that symbol
    returns the quote at any clock of the same UTC day whose second is
    before the second of the write plus [CACHE_TTL]. *)
Theorem variant_round_trip_within_a_day (symbol : string) (q : Quote)
    (st : Table.State) (t_store t_lookup : Z) :
  (t_store / 86400000 = t_lookup / 86400000)%Z ->
  (JsDate.epoch_seconds t_lookup < JsDate.epoch_seconds t_store + CACHE_TTL cfg)%Z ->
  outcome
    (run (Table.service "date") (Variant.getFromCache cfg symbol)
       (Table.at_time
          (final (run (Table.service "date") (Variant.saveToCache cfg symbol q)
                    (Table.at_time st t_store)))
          t_lookup))
    = Returned (Some q).
Proof.
  intros Hday Hfresh. rewrite variant_lookup, variant_save_final.
  cbn -[Variant.today JsDate.epoch_seconds JsDate.toISOString Z.add Z.ltb lookup insert].
  rewrite (today_same_day t_store t_lookup Hday), lookup_insert_eq.
  cbn -[Variant.today JsDate.epoch_seconds JsDate.toISOString Z.add Z.ltb].
  apply Z.ltb_lt in Hfresh. rewrite Hfresh. reflexivity.
Qed.

(** X16: against a table whose sort attribute is not [date] (the table of
    the schema document has [dataType]), the second copy never caches:
    every lookup returns [null], and a store leaves the table as it was. *)
Theorem variant_never_caches_under_other_schema (sort_attr symbol : string)
    (q : Quote) (st : Table.State) :
  sort_attr <> "date" ->
  outcome (run (Table.service sort_attr) (Variant.getFromCache cfg symbol) st)
    = Returned None /\
  outcome (run (Table.service sort_attr) (Variant.saveToCache cfg symbol q) st)
    = Returned tt /\
  final (run (Table.service sort_attr) (Variant.saveToCache cfg symbol q) st) = st.
Proof.
  intros Hne.
  assert (Heqb : String.eqb "date" sort_attr = false).
  { apply String.eqb_neq. congruence. }
  rewrite variant_lookup, variant_save_final, Heqb.
  repeat split.
  apply CompareFacts.variant_saveToCache_returns.
Qed.

End Keyed.

Section VariantHandler.
Context {S : Type} (cfg : Config) (rt : JsRuntime) (w : World S).

(** X17: every response of the second copy's handler is either a 200
    response with a quote body, whose multi-quote form always carries
    [success: true], or a 400 response with [success: false] and a message
    that is not empty. *)
Theorem variant_response_is_200_or_400 (event : JsVal) :
  let r := response (Variant.handler cfg rt w event) in
  (exists b, r = successResponse b /\
             match b with
             | MultiQuote flag _ _ _ _ => flag = Some true
             | SingleQuote _ _ _ => True
             | Failure _ _ _ => False
             end) \/
  (exists msg, r = errorResponse msg (reply_clock w) /\ msg <> "").
Proof.
  cbv zeta.
  assert (Hmsg : forall e, JsCall.message_or_unknown e <> "").
  { intros e. unfold JsCall.message_or_unknown.
    destruct (message e); simpl; discriminate. }
  unfold Variant.handler, Variant.handler_try.
  destruct (Variant.resolveSymbols event) as [e | symbols]; [right; eauto |].
  destruct (length symbols =? 0)%nat.
  { right. eexists. split; [reflexivity | discriminate]. }
  cbv zeta.
  destruct (promise_all (map outcome (Variant.resolve_each cfg rt w symbols)))
    as [e | quotes]; simpl; [right; eauto |].
  unfold Variant.compose.
  destruct (Variant.responseShape event) as [e | [|]]; simpl; [right; eauto | |].
  - destruct (omap id quotes) as [| q rest].
    + right. eexists. split; [reflexivity | discriminate].
    + left. eexists. split; [reflexivity | exact I].
  - left. eexists. split; reflexivity.
Qed.

End VariantHandler.

(** Stored at 10:30:00.000, read 299.999 s later on the same day. *)
Lemma variant_round_trip_within_a_day_witness :
  outcome
    (run (Table.service "date")
       (Variant.getFromCache (Variant.default_config None) "AAPL")
       (Table.at_time
          (final (run (Table.service "date")
                    (Variant.saveToCache (Variant.default_config None) "AAPL"
                       (Sample.quote "AAPL"))
                    (Table.at_time Backend.empty_table Sample.noon)))
          (Sample.noon + 299999)))
    = Returned (Some (Sample.quote "AAPL")).
Proof.
  apply (variant_round_trip_within_a_day (Variant.default_config None) "AAPL"
           (Sample.quote "AAPL") Backend.empty_table Sample.noon (Sample.noon + 299999)).
  - vm_compute. reflexivity.
  - vm_compute. reflexivity.
Defined.

(** The table of the schema document. *)
Lemma variant_never_caches_under_other_schema_witness :
  outcome (run (Table.service "dataType")
             (Variant.getFromCache (Variant.default_config None) "AAPL")
             Backend.empty_table)
    = Returned None /\
  outcome (run (Table.service "dataType")
             (Variant.saveToCache (Variant.default_config None) "AAPL"
                (Sample.quote "AAPL"))
             Backend.empty_table)
    = Returned tt /\
  final (run (Table.service "dataType")
           (Variant.saveToCache (Variant.default_config None) "AAPL"
              (Sample.quote "AAPL"))
           Backend.empty_table)
    = Backend.empty_table.
Proof.
  apply (variant_never_caches_under_other_schema (Variant.default_config None)
           "dataType" "AAPL" (Sample.quote "AAPL") Backend.empty_table).
  discriminate.
Defined.

End VariantFacts.
